(** * The simulated robot of plumes/src/simulation_agent.py

    A shallow embedding of the [Robot] class: construction ([__init__]),
    myopic action selection ([choose_trajectory]), observation collection
    ([collect_observations]), the best-estimate query ([predict_max]) and the
    planning loop ([planner]), followed by the properties of the agent's
    specification that were checked against it.

    Conventions.
    - A Python float is a [pyfloat]: not-a-number or a number.  Finite doubles
      are idealised as rationals; only the order of the numbers and the
      behaviour of not-a-number under comparison matter here.
    - A method of the robot is a computation over a [Runtime]: the robot
      itself, Python's random generator, the 'robot' logger, the warnings
      issued, the metrics sink, the figures written, the files saved and the
      directories that exist.
      An exception leaves the state as it was when it was raised.
    - Console output ([print]) is not modelled. *)

From Stdlib Require Import List ZArith QArith Qminmax String Bool Lia Lqa Arith.
Import ListNotations.

Set Implicit Arguments.

(** ** Python floats *)

Inductive pyfloat : Type :=
| NaN
| Num (q : Q).

(** [a == b] on floats: false as soon as one side is not-a-number. *)
Definition float_eqb (a b : pyfloat) : bool :=
  match a, b with
  | Num x, Num y => Qeq_bool x y
  | _, _ => false
  end.

(** [a > b] on floats. *)
Definition float_gtb (a b : pyfloat) : bool :=
  match a, b with
  | Num x, Num y => negb (Qle_bool x y)
  | _, _ => false
  end.

(** [a <= b] on floats. *)
Definition float_leb (a b : pyfloat) : bool :=
  match a, b with
  | Num x, Num y => Qle_bool x y
  | _, _ => false
  end.

Definition isnan (a : pyfloat) : bool :=
  match a with NaN => true | Num _ => false end.

(** The maximum that ignores not-a-number, folded by [np.nanmax]. *)
Definition fmax (a b : pyfloat) : pyfloat :=
  match a, b with
  | NaN, _ => b
  | _, NaN => a
  | Num x, Num y => if Qle_bool x y then b else a
  end.

(** ** Exceptions and results *)

Inductive exn : Type :=
| ValueError (msg : string)
| IndexError
| KeyError
| TypeError
| UnboundLocalError
| AttributeError
| IOError.

Inductive result (A : Type) : Type :=
| Ok (a : A)
| Raise (e : exn).

Arguments Ok {A} a.
Arguments Raise {A} e.

(** ** Rows of the N x 2 and N x 3 arrays

    A waypoint, a pose and an observation location are rows with at least two
    columns: [x[0]], [x[1]] and whatever follows (a heading, a time index). *)

Record row : Type := mk_row { c0 : Q; c1 : Q; cs : list Q }.

Definition trajectory_t := list row.

(** [value]: the dictionary filled by [enumerate(actions)], keys in the order
    they were inserted, 0, 1, 2, ... *)
Definition value_dict := list (nat * pyfloat).

Definition keys (value : value_dict) : list nat := map fst value.
Definition values (value : value_dict) : list pyfloat := map snd value.

Fixpoint dict_get (value : value_dict) (key : nat) : result pyfloat :=
  match value with
  | [] => Raise KeyError
  | (k, v) :: rest => if Nat.eqb k key then Ok v else dict_get rest key
  end.

Definition list_get {A} (l : list A) (i : nat) : result A :=
  match nth_error l i with
  | Some x => Ok x
  | None => Raise IndexError
  end.

(** [enumerate(l)] from a starting index. *)
Fixpoint enumerate_from {A} (i : nat) (l : list A) : list (nat * A) :=
  match l with
  | [] => []
  | x :: rest => (i, x) :: enumerate_from (S i) rest
  end.

Definition enumerate {A} (l : list A) : list (nat * A) := enumerate_from 0 l.

(** ** The belief model, [gplib.OnlineGPModel] *)

(** The calls the agent makes on its belief model, oldest first. *)
Inductive gp_call : Type :=
| TrainKernel (data : list row) (observations : list pyfloat)
              (kernel_file : option string)
| LoadKernel
| AddData (data : list row) (observations : list pyfloat)
| PredictValue (data : list row).

(** An object of a collaborating library that the agent only holds and passes
    on (the obstacle world, the kernel parameters, a sampled target function):
    a reference, known by its identity. *)
Inductive object : Type := Object (id : nat).

(** Modelled from the spec: gpmodel_library (class OnlineGPModel) is not
    among the sources.  The belief exposes the accumulated locations
    [xvals] and values [zvals], both [None] until data is added, and is
    updated incrementally by [add_data].  Kernel fitting and the posterior
    are numerical code of that library: fitting is recorded as a call, the
    posterior is the parameter [gp_posterior] below. *)
Record OnlineGPModel : Type := mk_GP {
  gp_ranges : Q * Q * Q * Q;
  gp_lengthscale : Q;
  gp_variance : Q;
  gp_noise : Q;
  gp_dim : Z;
  gp_kernel : string;
  gp_kparams : object;
  xvals : option (list row);
  zvals : option (list pyfloat);
  gp_calls : list gp_call
}.

Definition gp_record (c : gp_call) (gp : OnlineGPModel) : OnlineGPModel :=
  mk_GP (gp_ranges gp) (gp_lengthscale gp) (gp_variance gp) (gp_noise gp)
        (gp_dim gp) (gp_kernel gp) (gp_kparams gp) (xvals gp) (zvals gp)
        (gp_calls gp ++ [c]).

Definition extend {A} (old : option (list A)) (new : list A) : option (list A) :=
  match old with
  | None => Some new
  | Some l => Some (l ++ new)
  end.

(** Modelled from the spec: [add_data(locations, values)] adds the batch to the
    accumulated observations. *)
Definition add_data (data : list row) (observations : list pyfloat)
           (gp : OnlineGPModel) : OnlineGPModel :=
  mk_GP (gp_ranges gp) (gp_lengthscale gp) (gp_variance gp) (gp_noise gp)
        (gp_dim gp) (gp_kernel gp) (gp_kparams gp)
        (extend (xvals gp) data) (extend (zvals gp) observations)
        (gp_calls gp ++ [AddData data observations]).

(** Modelled from the spec: fitting the kernel on a dataset and loading a
    serialized kernel are recorded as calls; the hyperparameter values
    themselves are not modelled. *)
Definition train_kernel (data : list row) (observations : list pyfloat)
           (kernel_file : option string) (gp : OnlineGPModel) : OnlineGPModel :=
  gp_record (TrainKernel data observations kernel_file) gp.

Definition load_kernel (gp : OnlineGPModel) : OnlineGPModel :=
  gp_record LoadKernel gp.

(** The number of observations the belief holds, [len(GP.zvals)]. *)
Definition belief_size (gp : OnlineGPModel) : nat :=
  match zvals gp with
  | None => 0
  | Some l => List.length l
  end.

(** ** Reward functions, [aqlib] *)

Inductive acquisition : Type :=
| mean_UCB
| info_gain
| mves
| exp_improvement
| gumbel_mves.

(** The [param] argument of a reward function. *)
Inductive reward_param : Type :=
| ParamNone
| ParamMes (max_val : list pyfloat) (max_locs : list row) (target : object)
| ParamMaxes (maxes : list pyfloat)
| ParamGumbel (max_vals : list pyfloat)
| ParamScalar (current_max : pyfloat).

(** ** Construction arguments and the robot *)

Definition dataset := (list row * list pyfloat)%type.

Record kwargs : Type := mk_kwargs {
  kw_extent : Q * Q * Q * Q;
  kw_dimension : Z;
  kw_start_loc : row;
  kw_start_time : Z;
  kw_sample_world : row -> Z -> pyfloat;
  kw_noise : Q;
  kw_obstacle_world : object;
  kw_kernel : string;
  kw_kparams : object;
  kw_init_lengthscale : Q;
  kw_init_variance : Q;
  kw_kernel_dataset : option dataset;
  kw_prior_dataset : option dataset;
  kw_kernel_file : option string;
  kw_f_rew : string;
  kw_path_generator : row -> Z -> object -> bool -> list trajectory_t;
  kw_tree_type : string;
  kw_nonmyopic : bool;
  kw_computation_budget : Z;
  kw_rollout_length : Z;
  kw_create_animation : bool;
  kw_MIN_COLOR : option Q;
  kw_MAX_COLOR : option Q;
  kw_running_simulation : bool
}.

(** [self].  [measure_environment] is the sampler [sample_world], which
    returns one value for each location it is given; [path_generator] is the
    [generate_trajectories] method of the generator object; the metrics sink
    [self.eval] is the [eval_log] of the runtime. *)
Record Robot : Type := mk_Robot {
  ranges : Q * Q * Q * Q;
  dim : Z;
  loc : row;
  time : Z;
  measure_environment : row -> Z -> pyfloat;
  noise : Q;
  obstacle_world : object;
  kernel : string;
  kparams : object;
  GP : OnlineGPModel;
  f_rew : string;
  aquisition_function : acquisition;
  path_generator : row -> Z -> object -> bool -> list trajectory_t;
  tree_type : string;
  nonmyopic : bool;
  comp_budget : Z;
  roll_length : Z;
  create_animation : bool;
  MIN_COLOR : option Q;
  MAX_COLOR : option Q;
  running_simulation : bool;
  maxes : list pyfloat;
  current_max : pyfloat;
  current_max_loc : Q * Q;
  max_locs : option (list row);
  max_val : option (list pyfloat);
  target : option object;
  trajectory : list trajectory_t;
  dist : Q
}.

(** Assignments to the attributes that the methods mutate. *)

Definition set_loc (v : row) (r : Robot) : Robot :=
  mk_Robot (ranges r) (dim r) v (time r) (measure_environment r) (noise r)
           (obstacle_world r) (kernel r) (kparams r) (GP r) (f_rew r)
           (aquisition_function r) (path_generator r) (tree_type r)
           (nonmyopic r) (comp_budget r) (roll_length r) (create_animation r)
           (MIN_COLOR r) (MAX_COLOR r) (running_simulation r) (maxes r)
           (current_max r) (current_max_loc r) (max_locs r) (max_val r)
           (target r) (trajectory r) (dist r).

Definition set_time (v : Z) (r : Robot) : Robot :=
  mk_Robot (ranges r) (dim r) (loc r) v (measure_environment r) (noise r)
           (obstacle_world r) (kernel r) (kparams r) (GP r) (f_rew r)
           (aquisition_function r) (path_generator r) (tree_type r)
           (nonmyopic r) (comp_budget r) (roll_length r) (create_animation r)
           (MIN_COLOR r) (MAX_COLOR r) (running_simulation r) (maxes r)
           (current_max r) (current_max_loc r) (max_locs r) (max_val r)
           (target r) (trajectory r) (dist r).

Definition set_GP (v : OnlineGPModel) (r : Robot) : Robot :=
  mk_Robot (ranges r) (dim r) (loc r) (time r) (measure_environment r)
           (noise r) (obstacle_world r) (kernel r) (kparams r) v (f_rew r)
           (aquisition_function r) (path_generator r) (tree_type r)
           (nonmyopic r) (comp_budget r) (roll_length r) (create_animation r)
           (MIN_COLOR r) (MAX_COLOR r) (running_simulation r) (maxes r)
           (current_max r) (current_max_loc r) (max_locs r) (max_val r)
           (target r) (trajectory r) (dist r).

Definition set_current_max (v : pyfloat) (r : Robot) : Robot :=
  mk_Robot (ranges r) (dim r) (loc r) (time r) (measure_environment r)
           (noise r) (obstacle_world r) (kernel r) (kparams r) (GP r)
           (f_rew r) (aquisition_function r) (path_generator r) (tree_type r)
           (nonmyopic r) (comp_budget r) (roll_length r) (create_animation r)
           (MIN_COLOR r) (MAX_COLOR r) (running_simulation r) (maxes r) v
           (current_max_loc r) (max_locs r) (max_val r) (target r)
           (trajectory r) (dist r).

Definition set_current_max_loc (v : Q * Q) (r : Robot) : Robot :=
  mk_Robot (ranges r) (dim r) (loc r) (time r) (measure_environment r)
           (noise r) (obstacle_world r) (kernel r) (kparams r) (GP r)
           (f_rew r) (aquisition_function r) (path_generator r) (tree_type r)
           (nonmyopic r) (comp_budget r) (roll_length r) (create_animation r)
           (MIN_COLOR r) (MAX_COLOR r) (running_simulation r) (maxes r)
           (current_max r) v (max_locs r) (max_val r) (target r)
           (trajectory r) (dist r).

Definition set_max_locs (v : option (list row)) (r : Robot) : Robot :=
  mk_Robot (ranges r) (dim r) (loc r) (time r) (measure_environment r)
           (noise r) (obstacle_world r) (kernel r) (kparams r) (GP r)
           (f_rew r) (aquisition_function r) (path_generator r) (tree_type r)
           (nonmyopic r) (comp_budget r) (roll_length r) (create_animation r)
           (MIN_COLOR r) (MAX_COLOR r) (running_simulation r) (maxes r)
           (current_max r) (current_max_loc r) v (max_val r) (target r)
           (trajectory r) (dist r).

Definition set_max_val (v : option (list pyfloat)) (r : Robot) : Robot :=
  mk_Robot (ranges r) (dim r) (loc r) (time r) (measure_environment r)
           (noise r) (obstacle_world r) (kernel r) (kparams r) (GP r)
           (f_rew r) (aquisition_function r) (path_generator r) (tree_type r)
           (nonmyopic r) (comp_budget r) (roll_length r) (create_animation r)
           (MIN_COLOR r) (MAX_COLOR r) (running_simulation r) (maxes r)
           (current_max r) (current_max_loc r) (max_locs r) v (target r)
           (trajectory r) (dist r).

Definition set_target (v : option object) (r : Robot) : Robot :=
  mk_Robot (ranges r) (dim r) (loc r) (time r) (measure_environment r)
           (noise r) (obstacle_world r) (kernel r) (kparams r) (GP r)
           (f_rew r) (aquisition_function r) (path_generator r) (tree_type r)
           (nonmyopic r) (comp_budget r) (roll_length r) (create_animation r)
           (MIN_COLOR r) (MAX_COLOR r) (running_simulation r) (maxes r)
           (current_max r) (current_max_loc r) (max_locs r) (max_val r) v
           (trajectory r) (dist r).

Definition set_trajectory (v : list trajectory_t) (r : Robot) : Robot :=
  mk_Robot (ranges r) (dim r) (loc r) (time r) (measure_environment r)
           (noise r) (obstacle_world r) (kernel r) (kparams r) (GP r)
           (f_rew r) (aquisition_function r) (path_generator r) (tree_type r)
           (nonmyopic r) (comp_budget r) (roll_length r) (create_animation r)
           (MIN_COLOR r) (MAX_COLOR r) (running_simulation r) (maxes r)
           (current_max r) (current_max_loc r) (max_locs r) (max_val r)
           (target r) v (dist r).

Definition set_dist (v : Q) (r : Robot) : Robot :=
  mk_Robot (ranges r) (dim r) (loc r) (time r) (measure_environment r)
           (noise r) (obstacle_world r) (kernel r) (kparams r) (GP r)
           (f_rew r) (aquisition_function r) (path_generator r) (tree_type r)
           (nonmyopic r) (comp_budget r) (roll_length r) (create_animation r)
           (MIN_COLOR r) (MAX_COLOR r) (running_simulation r) (maxes r)
           (current_max r) (current_max_loc r) (max_locs r) (max_val r)
           (target r) (trajectory r) v.

(** ** Construction, [Robot.__init__] *)

(** The belief model before any call: the attributes as given, no data. *)
Definition blank_GP (kw : kwargs) : OnlineGPModel :=
  mk_GP (kw_extent kw) (kw_init_lengthscale kw) (kw_init_variance kw)
        (kw_noise kw) (kw_dimension kw) (kw_kernel kw) (kw_kparams kw)
        None None [].

(** The error of a dimensionality outside {2, 3}.  The specification names
    the failure (a configuration error, fatal at construction) and gives no
    text; it is taken to be a ValueError, as the constructor's own
    configuration error is. *)
Definition invalid_dimension : exn :=
  ValueError "dimensionality outside {2, 3}".

(** Modelled from the spec: the constructor [gplib.OnlineGPModel(...)] is not
    among the sources.  The specification makes a dimensionality outside
    {2, 3} a fatal error of construction that aborts before any loop
    iteration, and the belief model is constructed first; [Robot.__init__]
    itself stores the dimension without testing it and hands it to this
    constructor, so the test is the constructor's.  For 2 and 3 dimensions
    it returns the blank model. *)
Definition OnlineGPModel_init (kw : kwargs) : result OnlineGPModel :=
  if Z.eqb (kw_dimension kw) 2 || Z.eqb (kw_dimension kw) 3
  then Ok (blank_GP kw)
  else Raise invalid_dimension.

(** The [if]/[elif]/[elif]/[else] chain on the kernel sources. *)
Definition resolve_kernel (kw : kwargs) (gp : OnlineGPModel) : OnlineGPModel :=
  match kw_kernel_dataset kw, kw_prior_dataset kw,
        String.eqb (kw_kernel kw) "rbf" with
  | Some kd, Some pd, true =>
      train_kernel (fst pd ++ fst kd) (snd pd ++ snd kd) (kw_kernel_file kw) gp
  | Some kd, _, true =>
      train_kernel (fst kd) (snd kd) (kw_kernel_file kw) gp
  | _, _, _ =>
      match kw_kernel_file kw with
      | Some _ => load_kernel gp
      | None => gp
      end
  end.

Definition incorporate_prior (kw : kwargs) (gp : OnlineGPModel) : OnlineGPModel :=
  match kw_prior_dataset kw with
  | Some pd => add_data (fst pd) (snd pd) gp
  | None => gp
  end.

(** What the constructor of the robot makes of the model [gp] that the
    constructor of the belief returned. *)
Definition configure_GP (kw : kwargs) (gp : OnlineGPModel) : OnlineGPModel :=
  incorporate_prior kw (resolve_kernel kw gp).

(** The belief of the robot that the constructor returns. *)
Definition init_GP (kw : kwargs) : OnlineGPModel :=
  configure_GP kw (blank_GP kw).

Definition unsupported_reward : string :=
  "Only 'mean', 'info-gain', 'exp-improve', and 'mes'reward fucntions supported.".

Definition select_acquisition (f : string) : result acquisition :=
  if String.eqb f "mean" then Ok mean_UCB
  else if String.eqb f "info_gain" then Ok info_gain
  else if String.eqb f "mes" then Ok mves
  else if String.eqb f "exp_improve" then Ok exp_improvement
  else if String.eqb f "gumbel" then Ok gumbel_mves
  else Raise (ValueError unsupported_reward).

(** The attributes assigned by the constructor, for the belief model [gp]
    and the reward function [aq] it has set up. *)
Definition fresh_robot (kw : kwargs) (gp : OnlineGPModel) (aq : acquisition)
  : Robot :=
  mk_Robot (kw_extent kw) (kw_dimension kw) (kw_start_loc kw)
           (kw_start_time kw) (kw_sample_world kw) (kw_noise kw)
           (kw_obstacle_world kw) (kw_kernel kw) (kw_kparams kw) gp
           (kw_f_rew kw) aq (kw_path_generator kw) (kw_tree_type kw)
           (kw_nonmyopic kw) (kw_computation_budget kw)
           (kw_rollout_length kw) (kw_create_animation kw)
           (kw_MIN_COLOR kw) (kw_MAX_COLOR kw)
           (kw_running_simulation kw)
           [] (Num (-1000)) (0, 0) None None None [] 0.

Definition Robot_init (kw : kwargs) : result Robot :=
  match OnlineGPModel_init kw with
  | Raise e => Raise e
  | Ok gp0 =>
      let gp := configure_GP kw gp0 in
      match select_acquisition (kw_f_rew kw) with
      | Raise e => Raise e
      | Ok aq => Ok (fresh_robot kw gp aq)
      end
  end.

(** ** The state the methods run in *)

(** Python's [random] generator: the stream of draws and the number of
    draws already taken.  [random.choice] takes the next draw and reduces it
    modulo the length of its argument to a position, so that the positions
    share the draws equally. *)
Record RandomState : Type := mk_random { draws : nat -> nat; cursor : nat }.

Inductive log_level : Type := DEBUG | INFO | WARNING | ERROR | CRITICAL.

Inductive log_message : Type :=
| CurrentLocation (t : Z) (loc : row)
| PredictedMax (pred_loc : row) (pred_val : pyfloat).

Record log_record : Type := mk_log { level : log_level; message : log_message }.

Inductive py_warning : Type :=
| RuntimeWarning (msg : string).

(** One call of [self.eval.update_metrics]. *)
Record metrics_record : Type := mk_metrics {
  m_t : Z;
  m_robot_model : OnlineGPModel;
  m_robot_loc : row;
  m_sampling_path : option trajectory_t;
  m_value : pyfloat;
  m_max_loc : row;
  m_max_val : pyfloat;
  m_params : pyfloat * (Q * Q) * option (list pyfloat) * option (list row);
  m_dist : Q
}.

Inductive figure : Type :=
| RewardFigure (t : Z)
| TrajectoryFigure (t : Z).

(** A file written by [np.savetxt]: one row per array. *)
Definition csv := (list Q * list Q * list pyfloat)%type.

Record Runtime : Type := mk_Runtime {
  self : Robot;
  random : RandomState;
  robot_log : list log_record;
  py_warnings : list py_warning;
  eval_log : list metrics_record;
  env_calls : list (list row * Z);
  figures : list figure;
  saved : list (string * csv);
  directories : list string
}.

Definition with_self (r : Robot) (s : Runtime) : Runtime :=
  mk_Runtime r (random s) (robot_log s) (py_warnings s) (eval_log s)
             (env_calls s) (figures s) (saved s) (directories s).

(** A method: it runs in a state and returns a value or raises. *)
Definition M (A : Type) : Type := Runtime -> result A * Runtime.

Definition ret {A} (a : A) : M A := fun s => (Ok a, s).

Definition raise {A} (e : exn) : M A := fun s => (Raise e, s).

Definition bind {A B} (m : M A) (f : A -> M B) : M B :=
  fun s =>
    match m s with
    | (Ok a, s') => f a s'
    | (Raise e, s') => (Raise e, s')
    end.

(** [try: body except: handler], a bare [except]. *)
Definition try_except {A} (body handler : M A) : M A :=
  fun s =>
    match body s with
    | (Ok a, s') => (Ok a, s')
    | (Raise _, s') => handler s'
    end.

Definition lift {A} (x : result A) : M A := fun s => (x, s).

Notation "x <- c1 ;; c2" := (bind c1 (fun x => c2))
  (at level 61, c1 at next level, right associativity).
Notation "' pat <- c1 ;; c2" :=
  (bind c1 (fun x => match x with pat => c2 end))
  (at level 61, pat pattern, c1 at next level, right associativity).
Notation "c1 ;; c2" := (bind c1 (fun _ => c2))
  (at level 61, right associativity).

Definition get_self : M Robot := fun s => (Ok (self s), s).

Definition modify_self (f : Robot -> Robot) : M unit :=
  fun s => (Ok tt, with_self (f (self s)) s).

Definition logger_info (msg : log_message) : M unit :=
  fun s => (Ok tt,
            mk_Runtime (self s) (random s) (robot_log s ++ [mk_log INFO msg])
                       (py_warnings s) (eval_log s) (env_calls s) (figures s)
                       (saved s) (directories s)).

Definition warnings_warn (w : py_warning) : M unit :=
  fun s => (Ok tt,
            mk_Runtime (self s) (random s) (robot_log s) (py_warnings s ++ [w])
                       (eval_log s) (env_calls s) (figures s) (saved s)
                       (directories s)).

Definition update_metrics (m : metrics_record) : M unit :=
  fun s => (Ok tt,
            mk_Runtime (self s) (random s) (robot_log s) (py_warnings s)
                       (eval_log s ++ [m]) (env_calls s) (figures s) (saved s)
                       (directories s)).

Definition savefig (f : figure) : M unit :=
  fun s => (Ok tt,
            mk_Runtime (self s) (random s) (robot_log s) (py_warnings s)
                       (eval_log s) (env_calls s) (figures s ++ [f]) (saved s)
                       (directories s)).

(** [os.path.exists(d)] and [os.makedirs(d)]. *)
Definition os_path_exists (d : string) : M bool :=
  fun s => (Ok (existsb (String.eqb d) (directories s)), s).

Definition os_makedirs (d : string) : M unit :=
  fun s => (Ok tt,
            mk_Runtime (self s) (random s) (robot_log s) (py_warnings s)
                       (eval_log s) (env_calls s) (figures s) (saved s)
                       (directories s ++ [d])).

(** A file is written. *)
Definition write_file (name : string) (content : csv) : M unit :=
  fun s => (Ok tt,
            mk_Runtime (self s) (random s) (robot_log s) (py_warnings s)
                       (eval_log s) (env_calls s) (figures s)
                       (saved s ++ [(name, content)]) (directories s)).

(** [np.savetxt(dir + file, content)] opens the file for writing, which
    fails when the directory does not exist; it creates no directory. *)
Definition np_savetxt (dir file : string) (content : csv) : M unit :=
  there <- os_path_exists dir ;;
  if there then write_file (dir ++ file) content else raise IOError.

(** [random.choice(seq)] is [seq[int(random() * len(seq))]]: a draw is
    consumed, then the indexing fails on an empty sequence. *)
Definition random_choice {A} (seq : list A) : M A :=
  fun s =>
    let u := draws (random s) (cursor (random s)) in
    let s' := mk_Runtime (self s)
                         (mk_random (draws (random s)) (S (cursor (random s))))
                         (robot_log s) (py_warnings s) (eval_log s)
                         (env_calls s) (figures s) (saved s) (directories s) in
    (list_get seq (u mod List.length seq), s').


(** ** numpy *)

(** The result of [np.nanmax] on a non-empty sequence: the largest number,
    not-a-number when there is none. *)
Definition nanmax_of (x : pyfloat) (rest : list pyfloat) : pyfloat :=
  fold_left fmax rest x.

(** [np.nanmax(a)]: an empty sequence is an error; when every entry is
    not-a-number the result is not-a-number and a RuntimeWarning is issued
    through the warnings module. *)
Definition np_nanmax (a : list pyfloat) : M pyfloat :=
  match a with
  | [] => raise (ValueError "zero-size array to reduction operation")
  | x :: rest =>
      let res := nanmax_of x rest in
      if isnan res
      then warnings_warn (RuntimeWarning "All-NaN axis encountered") ;; ret res
      else ret res
  end.

(** [np.maximum]: not-a-number propagates. *)
Definition np_maximum (a b : pyfloat) : pyfloat :=
  match a, b with
  | NaN, _ => NaN
  | _, NaN => NaN
  | Num x, Num y => if Qle_bool y x then a else b
  end.

Definition np_max (a : list pyfloat) : result pyfloat :=
  match a with
  | [] => Raise (ValueError "zero-size array to reduction operation")
  | x :: rest => Ok (fold_left np_maximum rest x)
  end.

(** The scan of [np.argmax]: the running maximum [mp] found at [max_ind] is
    replaced by the entry at [i] unless that entry is [<= mp]; the scan stops
    at the first not-a-number, which counts as maximal. *)
Fixpoint argmax_scan (mp : pyfloat) (max_ind i : nat) (ip : list pyfloat) : nat :=
  match ip with
  | [] => max_ind
  | x :: rest =>
      if negb (float_leb x mp)
      then if isnan x then i else argmax_scan x i (S i) rest
      else argmax_scan mp max_ind (S i) rest
  end.

Definition np_argmax (a : list pyfloat) : result nat :=
  match a with
  | [] => Raise (ValueError "attempt to get argmax of an empty sequence")
  | x :: rest => if isnan x then Ok 0%nat else Ok (argmax_scan x 0 1 rest)
  end.

(** The order of [np.sort]: numbers by value, not-a-number last. *)
Definition sorts_before (a b : pyfloat) : bool :=
  match a, b with
  | Num x, Num y => Qle_bool x y
  | _, NaN => true
  | NaN, Num _ => false
  end.

Fixpoint insert_index (a : list pyfloat) (i : nat) (order : list nat) : list nat :=
  match order with
  | [] => [i]
  | j :: rest =>
      if sorts_before (nth j a NaN) (nth i a NaN)
      then j :: insert_index a i rest
      else i :: j :: rest
  end.

(** [np.argsort(a)]: the indices of [a] in the order of its values.  Among
    equal values numpy's order is that of its sorting algorithm; here it is
    that of the indices. *)
Definition np_argsort (a : list pyfloat) : list nat :=
  fold_left (fun order i => insert_index a i order) (seq 0 (List.length a)) [].

(** [np.linspace(start, stop, num)] for [num >= 2]: [num] evenly spaced
    samples, the last one being [stop]. *)
Definition linspace (start stop : Q) (num : nat) : list Q :=
  let step := ((stop - start) / inject_Z (Z.of_nat (num - 1)))%Q in
  map (fun i => if Nat.eqb (S i) num then stop
                else (start + inject_Z (Z.of_nat i) * step)%Q)
      (seq 0 num).

(** [np.vstack([x1.ravel(), x2.ravel()] ++ extra).T] for the [meshgrid] of
    [x1vals] and [x2vals] with 'xy' indexing: the first axis varies fastest. *)
Definition grid (x1vals x2vals : list Q) (extra : list Q) : list row :=
  flat_map (fun x2 => map (fun x1 => mk_row x1 x2 extra) x1vals) x2vals.

(** ** Collaborators *)

(** The numerical code of the libraries the agent calls:
    - [gp_posterior]: the posterior of the belief model at a location, mean
      and variance;
    - [aqlib_reward], [aqlib_sample_max_vals], [aqlib_sample_max_vals_gumbel]:
      the five reward functions of aqlib and its two samplers of maxima;
    - [mcts_choose_trajectory]: [mctslib.cMCTS(...).choose_trajectory(t)] for
      the robot the search is built from, the reward parameter and the
      iteration;
    - [np_sqrt]: the square root. *)
Record Collaborators : Type := mk_Collaborators {
  gp_posterior : OnlineGPModel -> row -> pyfloat * pyfloat;
  aqlib_reward :
    acquisition -> Z -> trajectory_t -> OnlineGPModel -> reward_param -> pyfloat;
  aqlib_sample_max_vals :
    OnlineGPModel -> Z -> object -> list pyfloat * list row * object;
  aqlib_sample_max_vals_gumbel : OnlineGPModel -> Z -> object -> list pyfloat;
  mcts_choose_trajectory :
    Robot -> reward_param -> Z ->
    option trajectory_t * pyfloat * list trajectory_t * value_dict
    * option (list row) * option (list pyfloat);
  np_sqrt : Q -> Q
}.

Section Agent.

Variable lib : Collaborators.

(** [self.GP.predict_value(data)]: means and variances, one per location. *)
Definition predict_value (data : list row) : M (list pyfloat * list pyfloat) :=
  r <- get_self ;;
  let gp := GP r in
  modify_self (set_GP (gp_record (PredictValue data) gp)) ;;
  ret (map (fun x => fst (gp_posterior lib gp x)) data,
       map (fun x => snd (gp_posterior lib gp x)) data).

(** [self.measure_environment(locations, time)]. *)
Definition sample_environment (locs : list row) (t : Z) : M (list pyfloat) :=
  fun s =>
    (Ok (map (fun x => measure_environment (self s) x t) locs),
     mk_Runtime (self s) (random s) (robot_log s) (py_warnings s) (eval_log s)
                (env_calls s ++ [(locs, t)]) (figures s) (saved s)
                (directories s)).

(** ** [Robot.predict_max] *)

(** The locations [data] built from [num] samples per axis of the extent;
    in a world that has neither 2 nor 3 dimensions [data] is never assigned
    and its first use fails. *)
Definition mesh_data (r : Robot) (num : nat) : M (list row) :=
  let '(lo1, hi1, lo2, hi2) := ranges r in
  let x1vals := linspace lo1 hi1 num in
  let x2vals := linspace lo2 hi2 num in
  if Z.eqb (dim r) 2 then ret (grid x1vals x2vals [])
  else if Z.eqb (dim r) 3 then ret (grid x1vals x2vals [inject_Z (time r)])
  else raise UnboundLocalError.

Definition prediction_grid (r : Robot) : M (list row) := mesh_data r 30.

Definition predict_max : M (row * pyfloat) :=
  r <- get_self ;;
  match xvals (GP r) with
  | None => ret (mk_row 0 0 [], Num 0)
  | Some _ =>
      data <- prediction_grid r ;;
      ' (observations, var) <- predict_value data ;;
      i <- lift (np_argmax observations) ;;
      x <- lift (list_get data i) ;;
      m <- lift (np_max observations) ;;
      ret (x, m)
  end.

(** ** [Robot.choose_trajectory] *)

(** The heuristic information handed to the reward function. *)
Definition build_param (t : Z) : M reward_param :=
  r <- get_self ;;
  if String.eqb (f_rew r) "mes" then
    let '(mv, ml, tg) := aqlib_sample_max_vals lib (GP r) t (obstacle_world r) in
    modify_self (fun r => set_target (Some tg)
                            (set_max_locs (Some ml) (set_max_val (Some mv) r))) ;;
    ret (ParamMes mv ml tg)
  else if String.eqb (f_rew r) "exp_improve" then
    if Nat.eqb (List.length (maxes r)) 0
    then ret (ParamMaxes [current_max r])
    else ret (ParamMaxes (maxes r))
  else if String.eqb (f_rew r) "gumbel" then
    ret (ParamGumbel (aqlib_sample_max_vals_gumbel lib (GP r) t (obstacle_world r)))
  else ret ParamNone.

(** [self.path_generator.generate_trajectories(...)]. *)
Definition generate_trajectories (r : Robot) (t : Z) : list trajectory_t :=
  path_generator r (loc r) t (obstacle_world r) (running_simulation r).

(** The dictionary [value] after the scoring loop. *)
Definition score_actions (r : Robot) (t : Z) (param : reward_param)
           (actions : list trajectory_t) : value_dict :=
  map (fun pa => (fst pa,
                  aqlib_reward lib (aquisition_function r) t (snd pa) (GP r) param))
      (enumerate actions).

(** [[key for key in ks if value[key] == np.nanmax(value.values())]]. *)
Fixpoint keys_at_nanmax (ks : list nat) (value : value_dict) : M (list nat) :=
  match ks with
  | [] => ret []
  | key :: rest =>
      v <- lift (dict_get value key) ;;
      m <- np_nanmax (values value) ;;
      tail <- keys_at_nanmax rest value ;;
      ret (if float_eqb v m then key :: tail else tail)
  end.

Definition selection (actions : list trajectory_t) (value : value_dict)
           (best_key : nat)
  : M (trajectory_t * pyfloat * list trajectory_t * value_dict) :=
  a <- lift (list_get actions best_key) ;;
  v <- lift (dict_get value best_key) ;;
  ret (a, v, actions, value).

(** The [try]/[except] block: a random choice among the keys whose value
    equals [np.nanmax] of the values and, when anything in that fails, a
    random choice among all keys. *)
Definition pick_best (actions : list trajectory_t) (value : value_dict)
  : M (trajectory_t * pyfloat * list trajectory_t * value_dict) :=
  try_except
    (ks <- keys_at_nanmax (keys value) value ;;
     best_key <- random_choice ks ;;
     selection actions value best_key)
    (best_key <- random_choice (keys value) ;;
     selection actions value best_key).

Definition choose_trajectory (t : Z)
  : M (trajectory_t * pyfloat * list trajectory_t * value_dict) :=
  param <- build_param t ;;
  r <- get_self ;;
  let actions := generate_trajectories r t in
  let value := score_actions r t param actions in
  pick_best actions value.

(** ** [Robot.collect_observations] *)

(** One round of the loop over [zip(zobs, xobs[1:,:])]. *)
Definition track_max (r : Robot) (zx : pyfloat * row) : Robot :=
  let '(z, x) := zx in
  if float_gtb z (current_max r)
  then set_current_max_loc (c0 x, c1 x) (set_current_max z r)
  else r.

Definition collect_observations (xobs : list row) : M unit :=
  r <- get_self ;;
  zobs <- sample_environment (removelast xobs) (time r) ;;
  modify_self (fun r => set_GP (add_data (removelast xobs) zobs (GP r)) r) ;;
  modify_self (fun r => fold_left track_max (combine zobs (tl xobs)) r).


(** ** [Robot.planner] *)

(** The plotting methods, as far as the agent is concerned: the locations of
    the contour plot, the call of the predictor that [visualize_trajectory]
    makes on them, the statements of the method itself that can fail, the
    directory created for the figures and the figure written.  The reward
    that [visualize_reward] plots is computed inside aqlib; the drawing, its
    colours and the warnings of the drawing are matplotlib's and numpy's and
    are not modelled. *)

(** The directory of the figures and of the exported model. *)
Definition figures_dir (r : Robot) : string := "./figures/" ++ f_rew r.

(** [if not os.path.exists(dir): os.makedirs(dir)], then [savefig]. *)
Definition save_figure (dir : string) (f : figure) : M unit :=
  there <- os_path_exists dir ;;
  (if negb there then os_makedirs dir else ret tt) ;;
  savefig f.

Definition visualize_reward (t : Z) : M unit :=
  r <- get_self ;;
  data <- mesh_data r 100 ;;
  save_figure (figures_dir r) (RewardFigure t).

(** [f = np.array(path)] and [plt.plot(f[:,0], f[:,1], ...)]: the array of
    an empty path has one axis, and indexing its columns fails. *)
Definition plot_path (path : trajectory_t) : M unit :=
  match path with
  | [] => raise IndexError
  | _ :: _ => ret tt
  end.

(** [for i, path in enumerate(self.trajectory)]. *)
Fixpoint plot_history (paths : list trajectory_t) : M unit :=
  match paths with
  | [] => ret tt
  | path :: rest => plot_path path ;; plot_history rest
  end.

(** [for index in path_order: points = all_paths[index]; ...]. *)
Fixpoint plot_in_order (all_paths : list trajectory_t) (path_order : list nat)
  : M unit :=
  match path_order with
  | [] => ret tt
  | index :: rest =>
      points <- lift (list_get all_paths index) ;;
      plot_path points ;;
      plot_in_order all_paths rest
  end.

(** The block under [if all_paths is not None]: [max(all_vals)] fails on an
    empty list of values. *)
Definition plot_options (all_paths : list trajectory_t)
           (all_vals : option value_dict) : M unit :=
  match all_vals with
  | None => raise AttributeError
  | Some value =>
      let vals := values value in
      match vals with
      | [] => raise (ValueError "max() arg is an empty sequence")
      | _ :: _ => plot_in_order all_paths (np_argsort vals)
      end
  end.

Definition visualize_trajectory (screen : bool) (filename : Z)
           (best_path : option trajectory_t) (maxes : option (list row))
           (all_paths : option (list trajectory_t))
           (all_vals : option value_dict) : M unit :=
  r <- get_self ;;
  data <- mesh_data r 100 ;;
  ' (observations, var) <- predict_value data ;;
  r <- get_self ;;
  plot_history (trajectory r) ;;
  match all_paths with
  | Some paths => plot_options paths all_vals
  | None => ret tt
  end ;;
  match best_path with
  | Some path => plot_path path
  | None => ret tt
  end ;;
  if screen then ret tt
  else save_figure (figures_dir r) (TrajectoryFigure filename).

(** The loop over the waypoints that accumulates [self.dist]. *)
Fixpoint travelled (start : row) (path : trajectory_t) (d : Q) : Q :=
  match path with
  | [] => d
  | m :: rest =>
      travelled m rest
        (d + np_sqrt lib ((c0 start - c0 m) ^ 2 + (c1 start - c1 m) ^ 2))%Q
  end.

(** The observation locations built from the chosen trajectory. *)
Definition observation_locations (r : Robot) (t : Z) (path : trajectory_t)
  : M (list row) :=
  match path with
  | [] => raise IndexError
  | _ :: _ =>
      if Z.eqb (dim r) 2
      then ret (map (fun p => mk_row (c0 p) (c1 p) []) path)
      else if Z.eqb (dim r) 3
      then ret (map (fun p => mk_row (c0 p) (c1 p) [inject_Z t]) path)
      else raise (ValueError "Only 2D or 3D worlds supported!")
  end.

(** The action selection of one iteration: the myopic choice, or the tree
    search. *)
Definition select_action (t : Z)
  : M (option trajectory_t * pyfloat * list trajectory_t * value_dict) :=
  r <- get_self ;;
  if negb (nonmyopic r) then
    ' (sampling_path, best_val, all_paths, all_values) <- choose_trajectory t ;;
    ret (Some sampling_path, best_val, all_paths, all_values)
  else
    let param := if String.eqb (f_rew r) "exp_improve"
                 then ParamScalar (current_max r) else ParamNone in
    let '(sampling_path, best_val, all_paths, all_values, ml, mv) :=
      mcts_choose_trajectory lib r param t in
    modify_self (fun r => set_max_val mv (set_max_locs ml r)) ;;
    ret (sampling_path, best_val, all_paths, all_values).

(** The body of the loop for iteration [t]; [true] stands for [break]. *)
Definition planner_iteration (t : Z) : M bool :=
  modify_self (set_time t) ;;
  r <- get_self ;;
  logger_info (CurrentLocation t (loc r)) ;;
  ' (pred_loc, pred_val) <- predict_max ;;
  logger_info (PredictedMax pred_loc pred_val) ;;
  ' (sampling_path, best_val, all_paths, all_values) <- select_action t ;;
  r <- get_self ;;
  update_metrics
    (mk_metrics t (GP r) (loc r) sampling_path best_val pred_loc pred_val
                (current_max r, current_max_loc r, max_val r, max_locs r)
                (dist r)) ;;
  match sampling_path with
  | None => ret true
  | Some path =>
      xlocs <- observation_locations r t path ;;
      (if Z.eqb (t mod 10) 0 then visualize_reward t else ret tt) ;;
      collect_observations xlocs ;;
      modify_self (fun r => set_trajectory (trajectory r ++ [path]) r) ;;
      modify_self (fun r => set_dist (travelled (loc r) path (dist r)) r) ;;
      r <- get_self ;;
      (if Z.eqb (t mod 10) 0
       then visualize_trajectory false t (Some path) (max_locs r)
                                 (Some all_paths) (Some all_values)
       else ret tt) ;;
      modify_self (fun r => set_loc (last path (loc r)) r) ;;
      ret false
  end.

(** [for t in xrange(T)]. *)
Fixpoint planner_loop (ts : list Z) : M unit :=
  match ts with
  | [] => ret tt
  | t :: rest =>
      stop <- planner_iteration t ;;
      if stop then ret tt else planner_loop rest
  end.

(** The export that follows the loop. *)
Definition export_model : M unit :=
  r <- get_self ;;
  match xvals (GP r), zvals (GP r) with
  | Some xs, Some zs =>
      np_savetxt (figures_dir r) "/robot_model.csv" (map c0 xs, map c1 xs, zs)
  | _, _ => raise TypeError
  end.

Definition planner (T : nat) : M unit :=
  modify_self (set_trajectory []) ;;
  modify_self (set_dist 0) ;;
  planner_loop (map Z.of_nat (seq 0 T)) ;;
  export_model.

(** The state in which a freshly built robot starts: nothing logged, nothing
    written, no directory for the figures yet. *)
Definition start_runtime (r : Robot) (g : RandomState) : Runtime :=
  mk_Runtime r g [] [] [] [] [] [] [].

End Agent.

(** * Scenarios

    Concrete collaborators and construction arguments on which the methods
    are run. *)

Definition free_world : object := Object 0.
Definition default_kparams : object := Object 1.

(** A sampler: the field is the sum of the two coordinates. *)
Definition plane_world (x : row) (t : Z) : pyfloat := Num (c0 x + c1 x).

(** A generator of three two-waypoint trajectories that start at the pose. *)
Definition fan (pose : row) (t : Z) (world : object) (sim : bool)
  : list trajectory_t :=
  [ [pose; mk_row (c0 pose + 1) (c1 pose) [0]];
    [pose; mk_row (c0 pose) (c1 pose + 3) [0]];
    [pose; mk_row (c0 pose + 3) (c1 pose) [0]] ].

(** A generator that runs out of trajectories from iteration [n] on. *)
Definition fan_until (n : Z) (pose : row) (t : Z) (world : object) (sim : bool)
  : list trajectory_t :=
  if Z.ltb t n then fan pose t world sim else [].

(** A reward: the largest displacement along an axis, from the first to the
    last waypoint. *)
Definition displacement (aq : acquisition) (t : Z) (xvals : trajectory_t)
           (gp : OnlineGPModel) (param : reward_param) : pyfloat :=
  match xvals with
  | [] => NaN
  | a :: rest =>
      let b := last rest a in Num (Qmax (c0 b - c0 a) (c1 b - c1 a))
  end.

(** A reward that cannot score anything. *)
Definition degenerate (aq : acquisition) (t : Z) (xvals : trajectory_t)
           (gp : OnlineGPModel) (param : reward_param) : pyfloat := NaN.

Definition collaborators_with
           (reward : acquisition -> Z -> trajectory_t -> OnlineGPModel ->
                     reward_param -> pyfloat) : Collaborators :=
  mk_Collaborators
    (fun gp x => (Num (c0 x), Num 1))
    reward
    (fun gp t world => ([], [], Object 2))
    (fun gp t world => [])
    (fun r param t => (None, NaN, [], [], None, None))
    (fun q => q).

Definition scenario_kwargs (dimension : Z) (kernel f_rew : string)
           (kernel_dataset prior_dataset : option dataset)
           (generator : row -> Z -> object -> bool -> list trajectory_t)
  : kwargs :=
  mk_kwargs (0, 10, 0, 10) dimension (mk_row 5 5 [0]) 0 plane_world 1
            free_world kernel default_kparams 1 100
            kernel_dataset prior_dataset None f_rew generator "dpw" false
            250 1 true (Some (-25)) (Some 25) true.

(** A random generator whose first draws are listed. *)
Definition random_of (l : list nat) : RandomState :=
  mk_random (fun i => nth i l 0%nat) 0.

Definition mean_kwargs : kwargs := scenario_kwargs 2 "rbf" "mean" None None fan.

(** The robot built from [mean_kwargs], and the state it starts in. *)
Definition mean_robot : Robot :=
  fresh_robot mean_kwargs (init_GP mean_kwargs) mean_UCB.

Definition mean_start : Runtime := start_runtime mean_robot (random_of []).

(** A kernel-training dataset of two observations. *)
Definition two_observations : dataset :=
  ([mk_row 1 1 []; mk_row 2 2 []], [Num 2; Num 4]).

(** A kernel other than 'rbf' together with a kernel-training dataset, no
    prior dataset and no kernel file. *)
Definition matern_kwargs : kwargs :=
  scenario_kwargs 2 "matern" "mean" (Some two_observations) None fan.

Definition three_waypoints : list row :=
  [mk_row 5 5 []; mk_row 6 5 []; mk_row 7 5 []].

(** The generator runs out of candidates at iteration 4. *)
Definition exhausted_kwargs : kwargs :=
  scenario_kwargs 2 "rbf" "mean" None None (fan_until 4).

Definition exhausted_start : Runtime :=
  start_runtime (fresh_robot exhausted_kwargs (init_GP exhausted_kwargs) mean_UCB)
                (random_of []).

(** A robot with the expected-improvement reward. *)
Definition improvement_kwargs : kwargs :=
  scenario_kwargs 2 "rbf" "exp_improve" None None fan.

(** A world of four dimensions. *)
Definition four_dim_kwargs : kwargs :=
  scenario_kwargs 4 "rbf" "mean" None None fan.

(** * Vocabulary of the properties

    What the statements below speak about: the readings of the specification
    that are checked, the states reached by a method, and the pure functions
    that a method is shown to compute. *)

(** The closed set of reward-variant tags, each with its reward function. *)
Definition reward_variants : list (string * acquisition) :=
  [ ("mean", mean_UCB); ("info_gain", info_gain); ("mes", mves);
    ("exp_improve", exp_improvement); ("gumbel", gumbel_mves) ]%string.

Fixpoint variant_of (tag : string) (l : list (string * acquisition))
  : option acquisition :=
  match l with
  | [] => None
  | (name, aq) :: rest => if String.eqb tag name then Some aq else variant_of tag rest
  end.

(** The call that folds a supplied prior dataset into the belief. *)
Definition prior_calls (kw : kwargs) : list gp_call :=
  match kw_prior_dataset kw with
  | Some pd => [AddData (fst pd) (snd pd)]
  | None => []
  end.

(** The reading under which a supplied kernel-training dataset is fitted
    whatever the kernel. *)
Definition kernel_dataset_always_fitted : Prop :=
  forall (kw : kwargs) (kd : dataset),
    kw_kernel_dataset kw = Some kd ->
    exists data observations file,
      In (TrainKernel data observations file) (gp_calls (init_GP kw)).

(** The state in which the robot built from the arguments starts. *)
Definition from_kwargs (kw : kwargs) (g : RandomState) : option Runtime :=
  match Robot_init kw with
  | Ok r => Some (start_runtime r g)
  | Raise _ => None
  end.

(** The locations handed to the sampler by a run of a method from [s]. *)
Definition sampled_during {A} (m : M A) (s : Runtime) : list row :=
  flat_map fst (skipn (List.length (env_calls s)) (env_calls (snd (m s)))).

(** A waypoint at the pose of the robot. *)
Definition at_pose (p x : row) : Prop := c0 x == c0 p /\ c1 x == c1 p.

(** The reading under which the waypoint left out of the sampling is the one
    the robot already occupies. *)
Definition spares_the_occupied_waypoint (s : Runtime) (xobs : list row) : Prop :=
  forall x, In x xobs ->
    (In x (sampled_during (collect_observations xobs) s) <->
     ~ at_pose (loc (self s)) x).

(** The tracked value after the samples [zs], starting from [m]. *)
Definition running_max (m : pyfloat) (zs : list pyfloat) : pyfloat :=
  fold_left (fun m z => if float_gtb z m then z else m) zs m.

Definition all_nan_warning : py_warning :=
  RuntimeWarning "All-NaN axis encountered".

(** [s] after the warnings [ws] were issued. *)
Definition warned (ws : list py_warning) (s : Runtime) : Runtime :=
  mk_Runtime (self s) (random s) (robot_log s) (py_warnings s ++ ws)
             (eval_log s) (env_calls s) (figures s) (saved s) (directories s).

(** [s] after [n] draws of the random generator. *)
Definition advanced (n : nat) (s : Runtime) : Runtime :=
  mk_Runtime (self s)
             (mk_random (draws (random s)) (n + cursor (random s)))
             (robot_log s) (py_warnings s) (eval_log s) (env_calls s)
             (figures s) (saved s) (directories s).

(** The draw that the [n]-th coming call of [random.choice] takes. *)
Definition coming_draw (n : nat) (s : Runtime) : nat :=
  draws (random s) (n + cursor (random s)).

(** [np.nanmax(value.values())] for a non-empty dictionary. *)
Definition maximum_score (value : value_dict) : pyfloat :=
  match values value with
  | [] => NaN
  | x :: rest => nanmax_of x rest
  end.

Definition at_maximum (value : value_dict) (kv : nat * pyfloat) : bool :=
  float_eqb (snd kv) (maximum_score value).

(** The keys whose value equals the maximum, in key order. *)
Definition tied_keys (value : value_dict) : list nat :=
  keys (filter (at_maximum value) value).

(** The warnings of one selection: one per key when no value is a number. *)
Definition selection_warnings (value : value_dict) : list py_warning :=
  if isnan (maximum_score value)
  then repeat all_nan_warning (List.length value)
  else [].

(** The dictionary that scoring [actions] with [g] fills. *)
Definition scored (g : trajectory_t -> pyfloat) (actions : list trajectory_t)
  : value_dict :=
  map (fun pa => (fst pa, g (snd pa))) (enumerate actions).

(** The value that [build_param] returns. *)
Definition reward_parameter (lib : Collaborators) (r : Robot) (t : Z)
  : reward_param :=
  if String.eqb (f_rew r) "mes" then
    let '(mv, ml, tg) := aqlib_sample_max_vals lib (GP r) t (obstacle_world r) in
    ParamMes mv ml tg
  else if String.eqb (f_rew r) "exp_improve" then
    if Nat.eqb (List.length (maxes r)) 0
    then ParamMaxes [current_max r]
    else ParamMaxes (maxes r)
  else if String.eqb (f_rew r) "gumbel" then
    ParamGumbel (aqlib_sample_max_vals_gumbel lib (GP r) t (obstacle_world r))
  else ParamNone.

(** The robot after [build_param]: the 'mes' variant stores its sample. *)
Definition remember_maxima (lib : Collaborators) (r : Robot) (t : Z) : Robot :=
  if String.eqb (f_rew r) "mes" then
    let '(mv, ml, tg) := aqlib_sample_max_vals lib (GP r) t (obstacle_world r) in
    set_target (Some tg) (set_max_locs (Some ml) (set_max_val (Some mv) r))
  else r.

(** The scores of the candidates available to the robot at iteration [t]. *)
Definition current_scores (lib : Collaborators) (r : Robot) (t : Z)
  : value_dict :=
  scored (fun a => aqlib_reward lib (aquisition_function r) t a (GP r)
                                (reward_parameter lib r t))
         (generate_trajectories r t).

(** The reading under which the fallback on degenerate scores leaves a
    record of warning level in the log of the agent. *)
Definition fallback_is_logged : Prop :=
  forall (lib : Collaborators) (t : Z) (s : Runtime),
    generate_trajectories (self s) t <> [] ->
    (forall k q, ~ In (k, Num q) (current_scores lib (self s) t)) ->
    exists record,
      In record (robot_log (snd (choose_trajectory lib t s))) /\
      level record = WARNING.


(** A method preserves the attribute [proj] of the robot. *)
Definition preserves {B A : Type} (proj : Robot -> B) (m : M A) : Prop :=
  forall s, proj (self (snd (m s))) = proj (self s).

(** An assignment that leaves the attribute [proj] as it is. *)
Definition untouched {B : Type} (proj : Robot -> B) (f : Robot -> Robot) : Prop :=
  forall r, proj (f r) = proj r.

(** The operations of the agent. *)
Inductive operation : Type :=
| ChooseTrajectory (t : Z)
| CollectObservations (xobs : list row)
| PredictMax
| PlannerIteration (t : Z)
| Planner (T : nat).

(** The state after an operation, whether it returned or raised. *)
Definition perform (lib : Collaborators) (op : operation) (s : Runtime)
  : Runtime :=
  match op with
  | ChooseTrajectory t => snd (choose_trajectory lib t s)
  | CollectObservations xobs => snd (collect_observations xobs s)
  | PredictMax => snd (predict_max lib s)
  | PlannerIteration t => snd (planner_iteration lib t s)
  | Planner T => snd (planner lib T s)
  end.

Definition after (lib : Collaborators) (ops : list operation) (s : Runtime)
  : Runtime :=
  fold_left (fun s op => perform lib op s) ops s.

(** The error of the test of the dimension in the loop of [planner]. *)
Definition unsupported_dimension : exn :=
  ValueError "Only 2D or 3D worlds supported!".

(** ** Further vocabulary: the run as a whole *)

(** The pose of the robot with its history and its accumulated distance. *)
Definition pose_of (r : Robot) : row * list trajectory_t * Q :=
  (loc r, trajectory r, dist r).

(** [r'] is [r] after the trajectory [path] was executed: the pose is its
    last waypoint, the history has it appended, and the distance has grown by
    its segments, the one from the previous pose to its first waypoint
    included. *)
Definition advances (lib : Collaborators) (r r' : Robot) (path : trajectory_t)
  : Prop :=
  path <> [] /\
  loc r' = last path (loc r) /\
  trajectory r' = trajectory r ++ [path] /\
  dist r' = travelled lib (loc r) path (dist r).

(** [r'] is [r] after the trajectory [path] was recorded and the pose was
    not moved: the history has it appended and the distance has grown by its
    segments, but the pose is still the previous one. *)
Definition interrupted (lib : Collaborators) (r r' : Robot) (path : trajectory_t)
  : Prop :=
  path <> [] /\
  loc r' = loc r /\
  trajectory r' = trajectory r ++ [path] /\
  dist r' = travelled lib (loc r) path (dist r).

(** The observation locations of a trajectory in a world of [d] dimensions
    at iteration [t]: the first two coordinates of each waypoint, followed in
    3 dimensions by the iteration. *)
Definition observation_rows (d : Z) (t : Z) (path : trajectory_t) : list row :=
  map (fun p => mk_row (c0 p) (c1 p) (if Z.eqb d 3 then [inject_Z t] else []))
      path.

(** The Euclidean length of the segment from [a] to [b], and the length of
    the path from [start] through the waypoints of [path]: the lengths of its
    consecutive segments, added up from the first one on. *)
Definition segment_length (lib : Collaborators) (a b : row) : Q :=
  np_sqrt lib ((c0 a - c0 b) ^ 2 + (c1 a - c1 b) ^ 2).

Definition path_length (lib : Collaborators) (start : row) (path : trajectory_t)
  : Q :=
  fold_left Qplus
            (map (fun ab => segment_length lib (fst ab) (snd ab))
                 (combine (start :: path) path))
            0.

(** The order of the tracked maximum: numbers by their order, and
    not-a-number only with itself. *)
Definition tracker_le (a b : pyfloat) : Prop :=
  match a, b with
  | Num x, Num y => x <= y
  | NaN, NaN => True
  | _, _ => False
  end.

(** A call that reads the belief or adds observations to it. *)
Definition observation_call (c : gp_call) : Prop :=
  match c with
  | AddData _ _ | PredictValue _ => True
  | TrainKernel _ _ _ | LoadKernel => False
  end.

(** Every state that the method [m] reaches is related by [R] to the state
    it started from, whether [m] returns or raises. *)
Definition evolves {A : Type} (R : Runtime -> Runtime -> Prop) (m : M A) : Prop :=
  forall s, R s (snd (m s)).


(** The state [s'] has the pose, the history, the distance and the record of
    sampler calls of [s]. *)
Definition frame (s s' : Runtime) : Prop :=
  pose_of (self s') = pose_of (self s) /\ env_calls s' = env_calls s.

(** The tracked maximum of [s'] is not below that of [s]. *)
Definition tracker_grows (s s' : Runtime) : Prop :=
  tracker_le (current_max (self s)) (current_max (self s')).

(** The calls on the belief model in [s'] are those of [s] followed by calls
    that read the belief or add observations. *)
Definition belief_calls_extend (s s' : Runtime) : Prop :=
  exists l, gp_calls (GP (self s')) = gp_calls (GP (self s)) ++ l /\
            Forall observation_call l.

(** The distance of the robot [r] is what the loop of [planner] accumulates
    along the trajectories of its history from [start], and no trajectory of
    the history is empty. *)
Definition recorded_path (lib : Collaborators) (start : row) (r : Robot) : Prop :=
  dist r = travelled lib start (List.concat (trajectory r)) 0 /\
  Forall (fun path : trajectory_t => path <> []) (trajectory r).

(** The robot stands at the end of the path that its history makes up from
    [start]. *)
Definition on_realized_path (lib : Collaborators) (start : row) (r : Robot)
  : Prop :=
  recorded_path lib start r /\
  loc r = last (List.concat (trajectory r)) start.

(** The robot stands where the last trajectory of its history begins: at
    the end of the path that the earlier ones make up from [start]. *)
Definition stalled (lib : Collaborators) (start : row) (r : Robot) : Prop :=
  recorded_path lib start r /\
  trajectory r <> [] /\
  loc r = last (List.concat (removelast (trajectory r))) start.

(** The attributes that the constructor assigns once: the configuration and
    the collaborators the robot holds. *)
Definition config_of (r : Robot) :=
  (ranges r, dim r, measure_environment r, noise r, obstacle_world r,
   kernel r, kparams r, f_rew r, aquisition_function r, path_generator r,
   tree_type r, nonmyopic r, comp_budget r, roll_length r,
   create_animation r, MIN_COLOR r, MAX_COLOR r, running_simulation r).


(** A robot whose attributes say four dimensions, with a belief that holds
    two observations, and a state of it.  No constructor returns this robot:
    the dimension is an attribute that was assigned. *)
Definition four_dim_prior_kwargs : kwargs :=
  scenario_kwargs 4 "rbf" "mean" None (Some two_observations) fan.

Definition four_dim_prior_start : Runtime :=
  start_runtime
    (fresh_robot four_dim_prior_kwargs (init_GP four_dim_prior_kwargs) mean_UCB)
    (random_of []).



(** A robot whose generator never returns a trajectory. *)
Definition stuck_kwargs : kwargs :=
  scenario_kwargs 2 "rbf" "mean" None None (fan_until 0).

Definition stuck_start : Runtime :=
  start_runtime (fresh_robot stuck_kwargs (init_GP stuck_kwargs) mean_UCB)
                (random_of []).





(** A robot whose attributes say four dimensions, with a belief that never
    received a batch, and a state of it.  No constructor returns this robot:
    the dimension is an attribute that was assigned. *)
Definition four_dim_start : Runtime :=
  start_runtime
    (fresh_robot four_dim_kwargs (init_GP four_dim_kwargs) mean_UCB)
    (random_of []).

(** A generator that returns, beside a trajectory of two waypoints, a
    trajectory without waypoints. *)
Definition ragged (pose : row) (t : Z) (world : object) (sim : bool)
  : list trajectory_t :=
  [ [pose; mk_row (c0 pose + 1) (c1 pose) [0]]; [] ].

Definition ragged_start : Runtime :=
  let kw := scenario_kwargs 2 "rbf" "mean" None None ragged in
  start_runtime (fresh_robot kw (init_GP kw) mean_UCB) (random_of []).

(** * Properties of the construction *)

Lemma variant_of_In : forall tag aq,
  variant_of tag reward_variants = Some aq <-> In (tag, aq) reward_variants.
Proof.
  intros tag aq; unfold reward_variants; simpl; split.
  - repeat match goal with
           | |- context [String.eqb tag ?n] =>
               destruct (String.eqb_spec tag n); [subst; intros [= <-]; tauto |]
           end.
    discriminate.
  - intros H.
    repeat (destruct H as [[= <- <-] | H]; [reflexivity |]).
    contradiction.
Qed.

Lemma variant_of_None : forall tag,
  variant_of tag reward_variants = None <->
  ~ In tag (map fst reward_variants).
Proof.
  intros tag; unfold reward_variants; simpl; split.
  - repeat match goal with
           | |- context [String.eqb tag ?n] =>
               destruct (String.eqb_spec tag n); [discriminate |]
           end.
    intros _ H; repeat (destruct H as [H | H]; [congruence |]); contradiction.
  - intros H.
    repeat match goal with
           | |- context [String.eqb tag ?n] =>
               destruct (String.eqb_spec tag n); [subst; exfalso; apply H; tauto |]
           end.
    reflexivity.
Qed.

Lemma select_acquisition_variant : forall tag,
  select_acquisition tag =
  match variant_of tag reward_variants with
  | Some aq => Ok aq
  | None => Raise (ValueError unsupported_reward)
  end.
Proof.
  intros tag; unfold select_acquisition, reward_variants; simpl.
  repeat match goal with
         | |- context [String.eqb tag ?n] => destruct (String.eqb tag n); [reflexivity |]
         end.
  reflexivity.
Qed.

(** The constructor of the belief returns the blank model in 2 and 3
    dimensions and raises otherwise. *)
Lemma OnlineGPModel_init_cases : forall kw : kwargs,
  ((kw_dimension kw = 2%Z \/ kw_dimension kw = 3%Z) /\
   OnlineGPModel_init kw = Ok (blank_GP kw)) \/
  (kw_dimension kw <> 2%Z /\ kw_dimension kw <> 3%Z /\
   OnlineGPModel_init kw = Raise invalid_dimension).
Proof.
  intros kw; unfold OnlineGPModel_init.
  destruct (Z.eqb_spec (kw_dimension kw) 2) as [E2 | E2];
    [left; split; [left; exact E2 | reflexivity] |].
  destruct (Z.eqb_spec (kw_dimension kw) 3) as [E3 | E3];
    [left; split; [right; exact E3 | reflexivity] |].
  right; repeat split; assumption.
Qed.

(** In 2 and 3 dimensions the reward tag alone decides the construction. *)
Lemma Robot_init_supported : forall kw : kwargs,
  kw_dimension kw = 2%Z \/ kw_dimension kw = 3%Z ->
  Robot_init kw =
  match select_acquisition (kw_f_rew kw) with
  | Ok aq => Ok (fresh_robot kw (init_GP kw) aq)
  | Raise e => Raise e
  end.
Proof.
  intros kw H; unfold Robot_init.
  destruct (OnlineGPModel_init_cases kw) as [[_ ->] | (H2 & H3 & _)];
    [reflexivity | destruct H; contradiction].
Qed.

Lemma Robot_init_unsupported : forall kw : kwargs,
  kw_dimension kw <> 2%Z -> kw_dimension kw <> 3%Z ->
  Robot_init kw = Raise invalid_dimension.
Proof.
  intros kw H2 H3; unfold Robot_init.
  destruct (OnlineGPModel_init_cases kw) as [[H _] | (_ & _ & ->)];
    [destruct H; contradiction | reflexivity].
Qed.

(** A robot that the constructor returned has 2 or 3 dimensions, the belief
    [init_GP] and the reward function of its tag. *)
Lemma Robot_init_ok : forall (kw : kwargs) (r : Robot),
  Robot_init kw = Ok r ->
  (kw_dimension kw = 2%Z \/ kw_dimension kw = 3%Z) /\
  exists aq, select_acquisition (kw_f_rew kw) = Ok aq /\
             r = fresh_robot kw (init_GP kw) aq.
Proof.
  intros kw r H.
  destruct (OnlineGPModel_init_cases kw) as [[Hdim _] | (H2 & H3 & _)].
  - split; [exact Hdim |].
    rewrite (Robot_init_supported kw Hdim) in H.
    destruct (select_acquisition (kw_f_rew kw)) as [aq | e]; [| discriminate].
    exists aq; split; [reflexivity |]; injection H as <-; reflexivity.
  - rewrite (Robot_init_unsupported kw H2 H3) in H; discriminate.
Qed.

(** C7. The reward-variant tag decides whether a robot is built, once the
    belief model is constructed (which is the first step and fails only on
    the dimension): a tag of the closed set of five yields a robot whose
    acquisition function is the one of that tag; any other tag raises the
    ValueError of the constructor and yields no robot.  When the belief
    model cannot be constructed its error is the outcome: a tag outside the
    set never yields a robot. *)
Theorem init_reward_variant_closed_set : forall kw : kwargs,
  match variant_of (kw_f_rew kw) reward_variants with
  | Some aq =>
      In (kw_f_rew kw, aq) reward_variants /\
      match OnlineGPModel_init kw with
      | Ok _ =>
          exists r, Robot_init kw = Ok r /\
                    aquisition_function r = aq /\ f_rew r = kw_f_rew kw
      | Raise e => Robot_init kw = Raise e
      end
  | None =>
      ~ In (kw_f_rew kw) (map fst reward_variants) /\
      match OnlineGPModel_init kw with
      | Ok _ => Robot_init kw = Raise (ValueError unsupported_reward)
      | Raise e => Robot_init kw = Raise e
      end
  end.
Proof.
  intros kw.
  destruct (variant_of (kw_f_rew kw) reward_variants) as [aq |] eqn:E.
  - split; [apply variant_of_In; exact E |].
    unfold Robot_init; rewrite select_acquisition_variant, E.
    destruct (OnlineGPModel_init kw) as [gp0 | e]; [| reflexivity].
    eexists; split; [reflexivity |]; split; reflexivity.
  - split; [apply variant_of_None; exact E |].
    unfold Robot_init; rewrite select_acquisition_variant, E.
    destruct (OnlineGPModel_init kw) as [gp0 | e]; reflexivity.
Qed.

Lemma init_GP_of_robot : forall kw : kwargs,
  match Robot_init kw with
  | Ok r => GP r = init_GP kw
  | Raise _ => True
  end.
Proof.
  intros kw; destruct (Robot_init kw) as [r | e] eqn:E; [| exact I].
  destruct (Robot_init_ok kw E) as (_ & aq & _ & ->); reflexivity.
Qed.

(** C6, counterexample. With a 'matern' kernel, a kernel-training dataset,
    no prior dataset and no kernel file, the constructor makes no call on the
    belief model at all: the dataset is not used to fit the kernel. *)
Lemma kernel_dataset_ignored_without_rbf : ~ kernel_dataset_always_fitted.
Proof.
  intros H.
  destruct (H matern_kwargs two_observations eq_refl) as (d & o & f & HIn).
  vm_compute in HIn; exact HIn.
Qed.

(** C6, amended. The constructor resolves the kernel hyperparameters by
    exactly one of four branches: with an 'rbf' kernel, a kernel-training
    dataset and a prior dataset, one fit on the prior data followed by the
    kernel-training data; with an 'rbf' kernel and a kernel-training dataset
    only, one fit on that dataset; otherwise, with a kernel file, one load;
    otherwise no call, the given values stand.  A supplied prior dataset is
    added to the belief as observations by the one call that follows, and the
    belief then holds exactly the prior data. *)
Theorem kernel_resolution_one_branch : forall kw : kwargs,
  exists resolution : list gp_call,
    gp_calls (init_GP kw) = resolution ++ prior_calls kw /\
    xvals (init_GP kw) = option_map fst (kw_prior_dataset kw) /\
    zvals (init_GP kw) = option_map snd (kw_prior_dataset kw) /\
    match Robot_init kw with
    | Ok r => GP r = init_GP kw
    | Raise _ => True
    end /\
    ((exists kd pd,
        kw_kernel_dataset kw = Some kd /\ kw_prior_dataset kw = Some pd /\
        kw_kernel kw = "rbf"%string /\
        resolution = [TrainKernel (fst pd ++ fst kd) (snd pd ++ snd kd)
                                  (kw_kernel_file kw)])
     \/
     (exists kd,
        kw_kernel_dataset kw = Some kd /\ kw_prior_dataset kw = None /\
        kw_kernel kw = "rbf"%string /\
        resolution = [TrainKernel (fst kd) (snd kd) (kw_kernel_file kw)])
     \/
     ((kw_kernel_dataset kw = None \/ kw_kernel kw <> "rbf"%string) /\
      (exists file, kw_kernel_file kw = Some file) /\
      resolution = [LoadKernel])
     \/
     ((kw_kernel_dataset kw = None \/ kw_kernel kw <> "rbf"%string) /\
      kw_kernel_file kw = None /\
      resolution = [])).
Proof.
  intros kw.
  pose proof (init_GP_of_robot kw) as HGP.
  unfold init_GP, configure_GP, incorporate_prior, resolve_kernel, prior_calls
    in *.
  destruct (kw_kernel_dataset kw) as [kd |] eqn:Ekd;
    destruct (kw_prior_dataset kw) as [pd |] eqn:Epd;
    destruct (String.eqb_spec (kw_kernel kw) "rbf") as [Ek | Ek];
    destruct (kw_kernel_file kw) as [file |] eqn:Ef;
    simpl in *;
    match goal with
    | |- exists r, ?l = r ++ ?p /\ _ =>
        exists (firstn (List.length l - List.length p) l)
    end; simpl;
    (split; [reflexivity |]);
    (split; [reflexivity |]); (split; [reflexivity |]);
    (split; [exact HGP |]);
    first
      [ left; exists kd, pd; repeat split; (reflexivity || assumption)
      | right; left; exists kd; repeat split; (reflexivity || assumption)
      | right; right; left; split; [auto |];
        split; [eexists; reflexivity | reflexivity]
      | right; right; right; split; [auto |]; split; reflexivity ].
Qed.

(** * Properties of [collect_observations] *)

Lemma collect_observations_run : forall (xobs : list row) (s : Runtime),
  let r := self s in
  let zobs := map (fun x => measure_environment r x (time r)) (removelast xobs) in
  collect_observations xobs s =
  (Ok tt,
   mk_Runtime
     (fold_left track_max (combine zobs (tl xobs))
                (set_GP (add_data (removelast xobs) zobs (GP r)) r))
     (random s) (robot_log s) (py_warnings s) (eval_log s)
     (env_calls s ++ [(removelast xobs, time r)]) (figures s) (saved s)
     (directories s)).
Proof. intros xobs s; reflexivity. Qed.

Lemma track_max_GP : forall (zx : list (pyfloat * row)) (r : Robot),
  GP (fold_left track_max zx r) = GP r.
Proof.
  induction zx as [| [z x] zx IH]; intros r; simpl; [reflexivity |].
  rewrite IH; unfold track_max; destruct (float_gtb z (current_max r)); reflexivity.
Qed.

Lemma removelast_length : forall (A : Type) (l : list A),
  List.length (removelast l) = (List.length l - 1)%nat.
Proof.
  induction l as [| a [| b l] IH]; simpl in *; [reflexivity | reflexivity |].
  rewrite IH; lia.
Qed.

Lemma skipn_own_length : forall (A : Type) (l l' : list A),
  skipn (List.length l) (l ++ l') = l'.
Proof. induction l; simpl; auto. Qed.

(** C5, counterexample. The robot built at pose (5, 5) collects along the
    waypoints (5, 5), (6, 5), (7, 5): the waypoint it occupies, (5, 5), is
    sampled, and the one left out is the last, (7, 5). *)
Lemma occupied_waypoint_is_sampled :
  exists s0, from_kwargs mean_kwargs (random_of []) = Some s0 /\
             loc (self s0) = mk_row 5 5 [0] /\
             sampled_during (collect_observations three_waypoints) s0 =
               [mk_row 5 5 []; mk_row 6 5 []] /\
             ~ spares_the_occupied_waypoint s0 three_waypoints.
Proof.
  eexists; split; [reflexivity |]; split; [reflexivity |];
    split; [reflexivity |].
  intros H.
  destruct (H (mk_row 5 5 []) (or_introl eq_refl)) as [H1 _].
  apply H1; [left; reflexivity | split; reflexivity].
Qed.

(** C5, amended. Given a trajectory of n waypoints, [collect_observations]
    samples the environment, in one call, at every waypoint except the last
    one of the trajectory, obtains one value per sampled waypoint and adds
    these n-1 (location, value) pairs to the belief in one batch; the
    observation count of the belief grows by exactly n-1 (by nothing for an
    empty trajectory), so the belief never shrinks. *)
Theorem collect_observations_samples_all_but_last :
  forall (xobs : list row) (s : Runtime),
    let r := self s in
    let s' := snd (collect_observations xobs s) in
    let sampled := removelast xobs in
    let zobs := map (fun x => measure_environment r x (time r)) sampled in
    fst (collect_observations xobs s) = Ok tt /\
    env_calls s' = env_calls s ++ [(sampled, time r)] /\
    sampled_during (collect_observations xobs) s = sampled /\
    List.length sampled = (List.length xobs - 1)%nat /\
    List.length zobs = List.length sampled /\
    GP (self s') = add_data sampled zobs (GP r) /\
    belief_size (GP (self s')) =
      (belief_size (GP r) + (List.length xobs - 1))%nat /\
    (belief_size (GP r) <= belief_size (GP (self s')))%nat.
Proof.
  intros xobs s r s' sampled zobs.
  assert (HGP : GP (self s') = add_data sampled zobs (GP r)).
  { subst s'; rewrite collect_observations_run; simpl.
    rewrite track_max_GP; reflexivity. }
  assert (Hlen : List.length zobs = List.length sampled)
    by (subst zobs; apply length_map).
  assert (Hsize : belief_size (GP (self s')) =
                  (belief_size (GP r) + (List.length xobs - 1))%nat).
  { rewrite HGP; unfold belief_size, add_data, extend; simpl.
    destruct (zvals (GP r)) as [old |].
    - rewrite length_app, Hlen; subst sampled; rewrite removelast_length; lia.
    - rewrite Hlen; subst sampled; rewrite removelast_length; lia. }
  repeat split.
  - unfold sampled_during; rewrite collect_observations_run; simpl.
    rewrite skipn_own_length; simpl; apply app_nil_r.
  - apply removelast_length.
  - exact Hlen.
  - exact HGP.
  - exact Hsize.
  - lia.
Qed.

(** ** The running maximum *)

Lemma Qle_bool_false : forall x y, Qle_bool x y = false <-> y < x.
Proof.
  intros x y; split; intros H.
  - apply Qnot_le_lt; intros Hle; apply Qle_bool_iff in Hle; congruence.
  - destruct (Qle_bool x y) eqn:E; [| reflexivity].
    apply Qle_bool_iff in E; lra.
Qed.

Lemma running_max_nan : forall zs, running_max NaN zs = NaN.
Proof.
  unfold running_max; induction zs as [| z zs IH]; simpl; [reflexivity |].
  destruct z; simpl; exact IH.
Qed.

(** From a number, the tracked value is a number: the start or one of the
    samples, not below the start and not below any sample. *)
Lemma running_max_num : forall zs b,
  exists c, running_max (Num b) zs = Num c /\ b <= c /\
            (forall x, In (Num x) zs -> x <= c) /\
            (Num c = Num b \/ In (Num c) zs).
Proof.
  unfold running_max; induction zs as [| z zs IH]; intros b; simpl.
  - exists b; repeat split; [lra | intros x [] | left; reflexivity].
  - destruct z as [| a]; simpl.
    + destruct (IH b) as (c & Hc & Hbc & Hall & Hin).
      exists c; repeat split; auto.
      * intros x [Hx | Hx]; [discriminate | auto].
      * destruct Hin; auto.
    + destruct (Qle_bool a b) eqn:E; simpl.
      * apply Qle_bool_iff in E.
        destruct (IH b) as (c & Hc & Hbc & Hall & Hin).
        exists c; repeat split; auto.
        -- intros x [[= <-] | Hx]; [lra | auto].
        -- destruct Hin; auto.
      * apply Qle_bool_false in E.
        destruct (IH a) as (c & Hc & Hac & Hall & Hin).
        exists c; repeat split; auto.
        -- lra.
        -- intros x [[= <-] | Hx]; [lra | auto].
        -- right; destruct Hin as [Hin | Hin]; [left; congruence | right; exact Hin].
Qed.

(** The tracked value never decreases. *)
Lemma running_max_monotone : forall m zs,
  float_gtb m (running_max m zs) = false.
Proof.
  intros [| b] zs.
  - reflexivity.
  - destruct (running_max_num zs b) as (c & -> & Hbc & _); simpl.
    apply Qle_bool_iff in Hbc; rewrite Hbc; reflexivity.
Qed.

(** No sample exceeds the tracked value. *)
Lemma running_max_bounds : forall m zs z,
  In z zs -> float_gtb z (running_max m zs) = false.
Proof.
  intros [| b] zs z Hz.
  - rewrite running_max_nan; destruct z; reflexivity.
  - destruct (running_max_num zs b) as (c & -> & _ & Hall & _).
    destruct z as [| x]; [reflexivity |]; simpl.
    apply Hall in Hz; apply Qle_bool_iff in Hz; rewrite Hz; reflexivity.
Qed.

Lemma track_max_current_max : forall (zx : list (pyfloat * row)) (r : Robot),
  current_max (fold_left track_max zx r) =
  running_max (current_max r) (map fst zx).
Proof.
  unfold running_max; induction zx as [| [z x] zx IH]; intros r; simpl;
    [reflexivity |].
  rewrite IH; unfold track_max.
  destruct (float_gtb z (current_max r)); reflexivity.
Qed.

Lemma map_fst_combine : forall (A B : Type) (l : list A) (l' : list B),
  List.length l = List.length l' -> map fst (combine l l') = l.
Proof.
  induction l as [| a l IH]; intros [| b l'] H; simpl in *;
    try discriminate; [reflexivity |].
  f_equal; apply IH; lia.
Qed.

Lemma tl_length : forall (A : Type) (l : list A),
  List.length (tl l) = (List.length l - 1)%nat.
Proof. destruct l; simpl; lia. Qed.

(** The value part of the tracker: after [collect_observations] the tracked
    value is the running maximum of the samples taken, in sample order; it
    is not below the value tracked before, and no sample exceeds it. *)
Lemma collect_observations_current_max : forall (xobs : list row) (s : Runtime),
  let r := self s in
  let zobs := map (fun x => measure_environment r x (time r)) (removelast xobs) in
  let m' := current_max (self (snd (collect_observations xobs s))) in
  m' = running_max (current_max r) zobs /\
  float_gtb (current_max r) m' = false /\
  (forall z, In z zobs -> float_gtb z m' = false).
Proof.
  intros xobs s r zobs m'.
  assert (E : m' = running_max (current_max r) zobs).
  { subst m'; rewrite collect_observations_run; simpl.
    rewrite track_max_current_max; simpl.
    rewrite map_fst_combine; [reflexivity |].
    rewrite length_map, removelast_length, tl_length; reflexivity. }
  split; [exact E |]; rewrite E; split.
  - apply running_max_monotone.
  - intros z Hz; apply running_max_bounds; exact Hz.
Qed.

(** C4. The robot built at pose (5, 5) collects along the waypoints
    (5, 5), (6, 5), (7, 5) in the field x + y.  The samples are 10 at (5, 5)
    and 11 at (6, 5); the tracker ends with the value 11, which was observed
    at (6, 5), and with the location (7, 5), the waypoint that follows it and
    that was not sampled: each sample is paired with the next waypoint. *)
Theorem running_max_location_is_next_waypoint :
  exists s0, from_kwargs mean_kwargs (random_of []) = Some s0 /\
    let s' := snd (collect_observations three_waypoints s0) in
    sampled_during (collect_observations three_waypoints) s0 =
      [mk_row 5 5 []; mk_row 6 5 []] /\
    zvals (GP (self s')) = Some [Num 10; Num 11] /\
    measure_environment (self s0) (mk_row 6 5 []) (time (self s0)) = Num 11 /\
    current_max (self s') = Num 11 /\
    current_max_loc (self s') = (7, 5) /\
    ~ In (mk_row 7 5 []) (sampled_during (collect_observations three_waypoints) s0).
Proof.
  eexists; split; [reflexivity |].
  cbv zeta; repeat split; try reflexivity.
  vm_compute; intros [H | [H | []]]; discriminate.
Qed.

(** * Properties of [choose_trajectory] *)

(** ** States reached by the selection *)

Lemma warned_nil : forall s, warned [] s = s.
Proof. intros []; unfold warned; simpl; rewrite app_nil_r; reflexivity. Qed.

Lemma warned_warned : forall ws ws' s,
  warned ws' (warned ws s) = warned (ws ++ ws') s.
Proof. intros ws ws' []; unfold warned; simpl; rewrite app_assoc; reflexivity. Qed.

Lemma random_choice_run : forall (A : Type) (seq : list A) (s : Runtime),
  random_choice seq s =
  (list_get seq (coming_draw 0 s mod List.length seq), advanced 1 s).
Proof. reflexivity. Qed.

(** ** The maximum that ignores not-a-number *)



(** [np.nanmax] of a sequence without a number is not-a-number. *)
Lemma nanmax_of_nan : forall rest x,
  (forall q, ~ In (Num q) (x :: rest)) -> nanmax_of x rest = NaN.
Proof.
  unfold nanmax_of; induction rest as [| z rest IH]; intros x H.
  - destruct x as [| b]; [reflexivity |].
    exfalso; apply (H b); left; reflexivity.
  - destruct x as [| b]; [| exfalso; apply (H b); left; reflexivity].
    simpl; apply IH; intros q Hq; apply (H q); right; exact Hq.
Qed.

(** ** The dictionary of scores *)

Lemma keys_enumerate_from : forall (g : trajectory_t -> pyfloat) actions i,
  keys (map (fun pa => (fst pa, g (snd pa))) (enumerate_from i actions)) =
  seq i (List.length actions).
Proof.
  unfold keys; induction actions as [| a actions IH]; intros i; simpl;
    [reflexivity |].
  f_equal; apply IH.
Qed.

Lemma keys_scored : forall g actions,
  keys (scored g actions) = seq 0 (List.length actions).
Proof. intros; apply keys_enumerate_from. Qed.

Lemma length_scored : forall g actions,
  List.length (scored g actions) = List.length actions.
Proof.
  intros g actions.
  rewrite <- (length_map fst (scored g actions)).
  fold (keys (scored g actions)); rewrite keys_scored; apply length_seq.
Qed.

Lemma dict_get_enumerate_from : forall (g : trajectory_t -> pyfloat) actions i k a,
  nth_error actions k = Some a ->
  dict_get (map (fun pa => (fst pa, g (snd pa))) (enumerate_from i actions))
           (i + k) = Ok (g a).
Proof.
  induction actions as [| x actions IH]; intros i k a H.
  - destruct k; discriminate.
  - destruct k as [| k]; simpl in *.
    + injection H as <-; rewrite Nat.add_0_r, Nat.eqb_refl; reflexivity.
    + replace (Nat.eqb i (i + S k)) with false
        by (symmetry; apply Nat.eqb_neq; lia).
      replace (i + S k)%nat with (S i + k)%nat by lia.
      apply IH; exact H.
Qed.

Lemma dict_get_scored : forall g actions k a,
  nth_error actions k = Some a -> dict_get (scored g actions) k = Ok (g a).
Proof. intros; apply (dict_get_enumerate_from g actions 0 k); assumption. Qed.

Lemma In_enumerate_from : forall (g : trajectory_t -> pyfloat) actions i k v,
  In (k, v) (map (fun pa => (fst pa, g (snd pa))) (enumerate_from i actions)) ->
  exists a, nth_error actions (k - i) = Some a /\ v = g a /\ (i <= k)%nat.
Proof.
  induction actions as [| x actions IH]; intros i k v H; simpl in H.
  - contradiction.
  - destruct H as [[= <- <-] | H].
    + exists x; rewrite Nat.sub_diag; repeat split; lia.
    + destruct (IH (S i) k v H) as (a & Ha & Hv & Hle).
      exists a; repeat split; [| exact Hv | lia].
      replace (k - i)%nat with (S (k - S i)) by lia; exact Ha.
Qed.

Lemma In_scored : forall g actions k v,
  In (k, v) (scored g actions) ->
  exists a, nth_error actions k = Some a /\ v = g a.
Proof.
  intros g actions k v H.
  destruct (In_enumerate_from g actions 0 k v H) as (a & Ha & Hv & _).
  rewrite Nat.sub_0_r in Ha; exists a; split; assumption.
Qed.

Lemma dict_get_In_scored : forall g actions k v,
  In (k, v) (scored g actions) -> dict_get (scored g actions) k = Ok v.
Proof.
  intros g actions k v H.
  destruct (In_scored g actions k v H) as (a & Ha & ->).
  apply dict_get_scored; exact Ha.
Qed.

Lemma tied_keys_In : forall value k,
  In k (tied_keys value) <->
  exists v, In (k, v) value /\ float_eqb v (maximum_score value) = true.
Proof.
  intros value k; unfold tied_keys, keys; rewrite in_map_iff; split.
  - intros ([k' v] & <- & H); apply filter_In in H; destruct H as [H1 H2].
    exists v; split; assumption.
  - intros (v & H1 & H2); exists (k, v); split; [reflexivity |].
    apply filter_In; split; assumption.
Qed.



(** ** The list comprehension and the two choices *)

Lemma np_nanmax_run : forall value s,
  value <> [] ->
  np_nanmax (values value) s =
  (Ok (maximum_score value),
   warned (if isnan (maximum_score value) then [all_nan_warning] else []) s).
Proof.
  intros value s H; unfold maximum_score, np_nanmax.
  destruct value as [| [k v] value]; [contradiction |]; simpl.
  destruct (isnan (nanmax_of v (values value))).
  - reflexivity.
  - rewrite warned_nil; reflexivity.
Qed.

Lemma keys_at_nanmax_run : forall value sub s,
  value <> [] ->
  (forall k v, In (k, v) sub -> dict_get value k = Ok v) ->
  keys_at_nanmax (keys sub) value s =
  (Ok (keys (filter (at_maximum value) sub)),
   warned (if isnan (maximum_score value)
           then repeat all_nan_warning (List.length sub) else []) s).
Proof.
  intros value sub; induction sub as [| [k v] sub IH]; intros s Hne Hget.
  - simpl; unfold ret; destruct (isnan (maximum_score value));
      simpl; rewrite warned_nil; reflexivity.
  - simpl; unfold bind at 1, lift.
    rewrite (Hget k v (or_introl eq_refl)).
    unfold bind at 1; rewrite np_nanmax_run by exact Hne.
    unfold bind at 1; rewrite IH; [| exact Hne | intros; apply Hget; right; assumption].
    unfold ret; simpl.
    rewrite warned_warned.
    replace (at_maximum value (k, v)) with (float_eqb v (maximum_score value))
      by reflexivity.
    destruct (isnan (maximum_score value)); simpl;
      destruct (float_eqb v (maximum_score value)); reflexivity.
Qed.

Lemma keys_at_nanmax_scored : forall g actions s,
  keys_at_nanmax (keys (scored g actions)) (scored g actions) s =
  (Ok (tied_keys (scored g actions)),
   warned (selection_warnings (scored g actions)) s).
Proof.
  intros g actions s.
  destruct (scored g actions) as [| kv value] eqn:E.
  - simpl; unfold ret, selection_warnings; simpl.
    rewrite warned_nil; reflexivity.
  - rewrite <- E; apply keys_at_nanmax_run.
    + rewrite E; discriminate.
    + intros k v; apply dict_get_In_scored.
Qed.

Lemma list_get_in_range : forall (A : Type) (l : list A) (u : nat),
  l <> [] ->
  exists x, nth_error l (u mod List.length l) = Some x /\
            list_get l (u mod List.length l) = Ok x.
Proof.
  intros A l u H; unfold list_get.
  destruct (nth_error l (u mod List.length l)) as [x |] eqn:E.
  - exists x; split; reflexivity.
  - apply nth_error_None in E.
    assert (List.length l <> 0%nat) by (destruct l; [contradiction | discriminate]).
    pose proof (Nat.mod_upper_bound u (List.length l) H0); lia.
Qed.

Lemma selection_run : forall g actions k a s,
  nth_error actions k = Some a ->
  selection actions (scored g actions) k s =
  (Ok (a, g a, actions, scored g actions), s).
Proof.
  intros g actions k a s H; unfold selection, bind, lift, list_get, ret.
  rewrite H, (dict_get_scored g actions k H); reflexivity.
Qed.

(** When some key reaches the maximum, the choice is made among the tied
    keys with the next draw. *)
Lemma pick_best_tied : forall g actions s,
  let value := scored g actions in
  tied_keys value <> [] ->
  exists k a,
    nth_error (tied_keys value)
              (coming_draw 0 s mod List.length (tied_keys value)) = Some k /\
    nth_error actions k = Some a /\
    pick_best actions value s =
    (Ok (a, g a, actions, value),
     advanced 1 (warned (selection_warnings value) s)).
Proof.
  intros g actions s value Htied.
  destruct (list_get_in_range (coming_draw 0 s) Htied) as (k & Hk & Hget).
  assert (Hin : In k (tied_keys value)) by (eapply nth_error_In; exact Hk).
  apply tied_keys_In in Hin; destruct Hin as (v & Hv & _).
  destruct (In_scored g actions k v Hv) as (a & Ha & ->).
  exists k, a; split; [exact Hk |]; split; [exact Ha |].
  unfold pick_best, try_except, bind at 1.
  subst value; rewrite keys_at_nanmax_scored.
  unfold bind; rewrite random_choice_run.
  change (coming_draw 0 (warned (selection_warnings (scored g actions)) s))
    with (coming_draw 0 s).
  rewrite Hget, (selection_run g actions k _ Ha); reflexivity.
Qed.

(** When no key reaches the maximum, the first choice fails on the empty
    list and the handler chooses among all keys with the draw after. *)
Lemma pick_best_fallback : forall g actions s,
  let value := scored g actions in
  tied_keys value = [] ->
  actions <> [] ->
  exists a,
    nth_error actions (coming_draw 1 s mod List.length actions) = Some a /\
    pick_best actions value s =
    (Ok (a, g a, actions, value),
     advanced 2 (warned (selection_warnings value) s)).
Proof.
  intros g actions s value Htied Hne.
  destruct (list_get_in_range (coming_draw 1 s) Hne) as (a & Ha & _).
  exists a; split; [exact Ha |].
  unfold pick_best, try_except, bind at 1.
  subst value; rewrite keys_at_nanmax_scored, Htied.
  unfold bind at 1; rewrite random_choice_run; simpl fst; cbv iota.
  unfold list_get at 1; rewrite nth_error_nil.
  unfold bind; rewrite random_choice_run.
  rewrite keys_scored, length_seq.
  set (u := (coming_draw 0 _ mod List.length actions)%nat).
  assert (Hu : u = (coming_draw 1 s mod List.length actions)%nat) by reflexivity.
  assert (Hlt : (u < List.length actions)%nat).
  { rewrite Hu; apply Nat.mod_upper_bound; destruct actions;
      [contradiction | discriminate]. }
  unfold list_get; rewrite nth_error_seq; simpl.
  apply Nat.ltb_lt in Hlt; rewrite Hlt.
  rewrite Hu in *; rewrite (selection_run g actions _ _ Ha); reflexivity.
Qed.

(** Without candidates both choices fail: the IndexError of the handler
    leaves the method. *)
Lemma pick_best_empty : forall g s,
  pick_best [] (scored g []) s = (Raise IndexError, advanced 2 s).
Proof.
  intros g s; unfold pick_best, try_except, bind, scored, random_choice; simpl.
  unfold list_get; rewrite !nth_error_nil; reflexivity.
Qed.

(** ** The method *)

Lemma with_self_self : forall s, with_self (self s) s = s.
Proof. intros []; reflexivity. Qed.

Lemma build_param_run : forall lib t s,
  build_param lib t s =
  (Ok (reward_parameter lib (self s) t),
   with_self (remember_maxima lib (self s) t) s).
Proof.
  intros lib t s.
  unfold build_param, reward_parameter, remember_maxima, bind, get_self.
  destruct (String.eqb (f_rew (self s)) "mes").
  - destruct (aqlib_sample_max_vals lib (GP (self s)) t (obstacle_world (self s)))
      as [[mv ml] tg]; reflexivity.
  - rewrite with_self_self.
    destruct (String.eqb (f_rew (self s)) "exp_improve");
      [destruct (Nat.eqb (List.length (maxes (self s))) 0); reflexivity |].
    destruct (String.eqb (f_rew (self s)) "gumbel"); reflexivity.
Qed.

Lemma remember_maxima_keeps : forall lib r t,
  let r' := remember_maxima lib r t in
  GP r' = GP r /\ aquisition_function r' = aquisition_function r /\
  generate_trajectories r' t = generate_trajectories r t /\
  maxes r' = maxes r /\ current_max r' = current_max r /\
  current_max_loc r' = current_max_loc r /\ dim r' = dim r /\
  loc r' = loc r /\ time r' = time r /\ f_rew r' = f_rew r /\
  nonmyopic r' = nonmyopic r /\ dist r' = dist r /\
  trajectory r' = trajectory r /\
  measure_environment r' = measure_environment r.
Proof.
  intros lib r t; unfold remember_maxima.
  destruct (String.eqb (f_rew r) "mes"); [| repeat split].
  destruct (aqlib_sample_max_vals lib (GP r) t (obstacle_world r)) as [[mv ml] tg].
  repeat split.
Qed.

Lemma choose_trajectory_run : forall lib t s,
  choose_trajectory lib t s =
  pick_best (generate_trajectories (self s) t) (current_scores lib (self s) t)
            (with_self (remember_maxima lib (self s) t) s).
Proof.
  intros lib t s; unfold choose_trajectory, bind at 1.
  rewrite build_param_run; unfold bind, get_self; simpl self.
  destruct (remember_maxima_keeps lib (self s) t) as (HGP & Haq & Hgen & _).
  unfold current_scores, score_actions; rewrite HGP, Haq, Hgen; reflexivity.
Qed.

Lemma In_scored_nth : forall g actions k a,
  nth_error actions k = Some a -> In (k, g a) (scored g actions).
Proof.
  intros g actions k a H; unfold scored, enumerate.
  replace k with (0 + k)%nat by reflexivity; generalize 0%nat as i.
  revert k H; induction actions as [| x actions IH]; intros k H i.
  - destruct k; discriminate.
  - destruct k as [| k]; simpl in *.
    + injection H as <-; left; rewrite Nat.add_0_r; reflexivity.
    + right; replace (i + S k)%nat with (S i + k)%nat by lia.
      apply IH; exact H.
Qed.


Lemma maximum_score_nan : forall value,
  (forall k q, ~ In (k, Num q) value) -> maximum_score value = NaN.
Proof.
  intros value H; unfold maximum_score.
  destruct (values value) as [| x rest] eqn:E; [reflexivity |].
  apply nanmax_of_nan; intros q Hq; rewrite <- E in Hq.
  apply in_map_iff in Hq; destruct Hq as ([k v] & Ev & Hin); simpl in Ev; subst v.
  exact (H k q Hin).
Qed.


(** The scores of the three candidates of [fan] under [displacement]. *)
Lemma mean_start_scores :
  generate_trajectories (self mean_start) 0 = fan (mk_row 5 5 [0]) 0 free_world true /\
  current_scores (collaborators_with displacement) (self mean_start) 0 =
    [(0%nat, Num 1); (1%nat, Num 3); (2%nat, Num 3)] /\
  tied_keys (current_scores (collaborators_with displacement) (self mean_start) 0) =
    [1%nat; 2%nat].
Proof. repeat split. Qed.


(** ** Degenerate scores and missing candidates *)

Lemma tied_keys_all_nan : forall value,
  (forall k q, ~ In (k, Num q) value) -> tied_keys value = [].
Proof.
  intros value H.
  destruct (tied_keys value) as [| k l] eqn:E; [reflexivity |].
  assert (Hin : In k (tied_keys value)) by (rewrite E; left; reflexivity).
  apply tied_keys_In in Hin; destruct Hin as (v & _ & Hv).
  rewrite (maximum_score_nan value H) in Hv.
  destruct v; discriminate.
Qed.

(** C2, amended. When the candidate set is not empty and no score is a
    number, [choose_trajectory] still returns a trajectory: the first random
    choice, among no key at all, raises, and the bare [except] handler
    chooses among all candidates, at the position given by the following
    draw of the random generator modulo the number of candidates.  The
    logger of the agent receives nothing; the only trace is the RuntimeWarning
    that [np.nanmax] issues through the warnings module, once per candidate. *)
Theorem choose_trajectory_all_nan_fallback :
  forall (lib : Collaborators) (t : Z) (s : Runtime),
    let actions := generate_trajectories (self s) t in
    let value := current_scores lib (self s) t in
    actions <> [] ->
    (forall k q, ~ In (k, Num q) value) ->
    exists path s',
      choose_trajectory lib t s = (Ok (path, NaN, actions, value), s') /\
      nth_error actions (coming_draw 1 s mod List.length actions) = Some path /\
      cursor (random s') = S (S (cursor (random s))) /\
      robot_log s' = robot_log s /\
      py_warnings s' =
        py_warnings s ++ repeat all_nan_warning (List.length actions).
Proof.
  intros lib t s actions value Hne Hnan.
  set (g := fun a => aqlib_reward lib (aquisition_function (self s)) t a
                                  (GP (self s)) (reward_parameter lib (self s) t)).
  destruct (@pick_best_fallback g actions
              (with_self (remember_maxima lib (self s) t) s)
              (tied_keys_all_nan value Hnan) Hne) as (a & Ha & Hrun).
  change (scored g actions) with value in Hrun.
  change (coming_draw 1 (with_self (remember_maxima lib (self s) t) s))
    with (coming_draw 1 s) in Ha.
  assert (Hscore : g a = NaN).
  { pose proof (@In_scored_nth g actions _ a Ha) as Hin.
    destruct (g a) as [| q] eqn:E; [reflexivity |].
    exfalso; exact (Hnan _ q Hin). }
  exists a; eexists; split.
  - rewrite choose_trajectory_run.
    change (generate_trajectories (self s) t) with actions.
    change (current_scores lib (self s) t) with value.
    rewrite Hrun, Hscore; reflexivity.
  - split; [exact Ha |]; split; [reflexivity |]; split; [reflexivity |].
    simpl; unfold selection_warnings.
    rewrite (maximum_score_nan value Hnan); simpl.
    subst value; unfold current_scores; rewrite length_scored; reflexivity.
Qed.

(** C2, counterexample. With three candidates that all score not-a-number
    the log of the agent is still empty after the choice. *)
Lemma fallback_leaves_no_log_record : ~ fallback_is_logged.
Proof.
  intros H.
  destruct (H (collaborators_with degenerate) 0%Z mean_start) as (record & Hin & _).
  - discriminate.
  - intros k q Hk; vm_compute in Hk.
    destruct Hk as [Hk | [Hk | [Hk | []]]]; discriminate.
  - vm_compute in Hin; exact Hin.
Qed.

(** C2, witness: three candidates, none of which can be scored. *)
Lemma choose_trajectory_all_nan_fallback_witness :
  generate_trajectories (self mean_start) 0 <> [] /\
  (forall k q,
      ~ In (k, Num q)
           (current_scores (collaborators_with degenerate) (self mean_start) 0)) /\
  exists path s',
    choose_trajectory (collaborators_with degenerate) 0 mean_start =
      (Ok (path, NaN, generate_trajectories (self mean_start) 0,
           current_scores (collaborators_with degenerate) (self mean_start) 0),
       s') /\
    robot_log s' = robot_log mean_start.
Proof.
  assert (H1 : generate_trajectories (self mean_start) 0 <> []) by discriminate.
  assert (H2 : forall k q,
             ~ In (k, Num q)
                  (current_scores (collaborators_with degenerate)
                                  (self mean_start) 0)).
  { intros k q Hk; vm_compute in Hk.
    destruct Hk as [Hk | [Hk | [Hk | []]]]; discriminate. }
  split; [exact H1 |]; split; [exact H2 |].
  destruct (@choose_trajectory_all_nan_fallback
              (collaborators_with degenerate) 0%Z mean_start H1 H2)
    as (path & s' & Hrun & _ & _ & Hlog & _).
  exists path, s'; split; [exact Hrun | exact Hlog].
Defined.

(** Without candidates [choose_trajectory] raises the IndexError of
    [random.choice] on an empty list; it returns nothing, [None] neither. *)
Lemma choose_trajectory_no_candidates : forall lib t s,
  generate_trajectories (self s) t = [] ->
  choose_trajectory lib t s =
  (Raise IndexError, advanced 2 (with_self (remember_maxima lib (self s) t) s)).
Proof.
  intros lib t s H; rewrite choose_trajectory_run.
  unfold current_scores; rewrite H; apply pick_best_empty.
Qed.

(** * Properties of [planner] *)

(** C1. A run of ten iterations whose generator returns no trajectory at
    iteration 4: the run does not end normally.  [planner] raises the
    IndexError of [choose_trajectory]; the four observations of iterations 0
    to 3 are in the belief, metrics were logged for these four iterations
    only, the log has the two lines of iteration 4, and no file was
    exported. *)
Theorem planner_without_candidates_raises :
  Robot_init exhausted_kwargs = Ok (self exhausted_start) /\
  let out := planner (collaborators_with displacement) 10 exhausted_start in
  generate_trajectories (self (snd out)) 4 = [] /\
  fst out = Raise IndexError /\
  time (self (snd out)) = 4%Z /\
  belief_size (GP (self (snd out))) = 4%nat /\
  List.length (eval_log (snd out)) = 4%nat /\
  List.length (robot_log (snd out)) = 10%nat /\
  List.length (env_calls (snd out)) = 4%nat /\
  saved (snd out) = [].
Proof.
  split; [reflexivity |].
  cbv zeta; vm_compute; repeat split.
Qed.

(** A run that exhausts its horizon returns and exports the observations. *)
Example planner_exports_after_the_horizon :
  let out := planner (collaborators_with displacement) 2 mean_start in
  fst out = Ok tt /\
  saved (snd out) =
    [("./figures/mean/robot_model.csv"%string,
      ([5; 5], [5; 8], [Num 10; Num 13]))].
Proof. cbv zeta; vm_compute; split; reflexivity. Qed.

(** * Properties of [predict_max] *)







(** The grid runs from the lower to the upper bound of each axis. *)
Lemma linspace_endpoints : forall start stop,
  nth_error (linspace start stop 30) 0 = Some (start + 0 * ((stop - start) / 29)) /\
  nth_error (linspace start stop 30) 29 = Some stop.
Proof. intros; split; reflexivity. Qed.



Lemma predict_max_empty : forall lib s,
  xvals (GP (self s)) = None ->
  predict_max lib s = (Ok (mk_row 0 0 [], Num 0), s).
Proof.
  intros lib s H; unfold predict_max, bind, get_self; rewrite H; reflexivity.
Qed.







(** * Attributes that the methods leave alone *)

Section Preservation.

Variables (B : Type) (proj : Robot -> B).

Lemma preserves_ret : forall (A : Type) (a : A), preserves proj (ret a).
Proof. intros A a s; reflexivity. Qed.

Lemma preserves_raise : forall (A : Type) (e : exn), preserves proj (@raise A e).
Proof. intros A e s; reflexivity. Qed.

Lemma preserves_lift : forall (A : Type) (x : result A), preserves proj (lift x).
Proof. intros A x s; reflexivity. Qed.

Lemma preserves_bind : forall (A C : Type) (m : M A) (f : A -> M C),
  preserves proj m -> (forall a, preserves proj (f a)) ->
  preserves proj (bind m f).
Proof.
  intros A C m f Hm Hf s; unfold bind.
  specialize (Hm s); destruct (m s) as [[a | e] s']; simpl in *.
  - rewrite Hf; exact Hm.
  - exact Hm.
Qed.

Lemma preserves_try_except : forall (A : Type) (body handler : M A),
  preserves proj body -> preserves proj handler ->
  preserves proj (try_except body handler).
Proof.
  intros A body handler Hb Hh s; unfold try_except.
  specialize (Hb s); destruct (body s) as [[a | e] s']; simpl in *.
  - exact Hb.
  - rewrite Hh; exact Hb.
Qed.

Lemma preserves_get_self : preserves proj get_self.
Proof. intros s; reflexivity. Qed.

Lemma preserves_modify_self : forall f,
  untouched proj f -> preserves proj (modify_self f).
Proof. intros f H s; simpl; apply H. Qed.

Lemma preserves_logger_info : forall msg, preserves proj (logger_info msg).
Proof. intros msg s; reflexivity. Qed.

Lemma preserves_warnings_warn : forall w, preserves proj (warnings_warn w).
Proof. intros w s; reflexivity. Qed.

Lemma preserves_update_metrics : forall m, preserves proj (update_metrics m).
Proof. intros m s; reflexivity. Qed.

Lemma preserves_savefig : forall f, preserves proj (savefig f).
Proof. intros f s; reflexivity. Qed.

Lemma preserves_os_path_exists : forall d, preserves proj (os_path_exists d).
Proof. intros d s; reflexivity. Qed.

Lemma preserves_os_makedirs : forall d, preserves proj (os_makedirs d).
Proof. intros d s; reflexivity. Qed.

Lemma preserves_write_file : forall name content,
  preserves proj (write_file name content).
Proof. intros name content s; reflexivity. Qed.

Lemma preserves_np_savetxt : forall dir file content,
  preserves proj (np_savetxt dir file content).
Proof.
  intros dir file content s; unfold np_savetxt, bind, os_path_exists.
  destruct (existsb (String.eqb dir) (directories s)); reflexivity.
Qed.

Lemma preserves_save_figure : forall dir f, preserves proj (save_figure dir f).
Proof.
  intros dir f s; unfold save_figure, bind, os_path_exists.
  destruct (existsb (String.eqb dir) (directories s)); reflexivity.
Qed.

Lemma preserves_plot_path : forall path, preserves proj (plot_path path).
Proof. intros [| p path] s; reflexivity. Qed.

Lemma preserves_plot_history : forall paths, preserves proj (plot_history paths).
Proof.
  induction paths as [| path paths IH]; simpl; [apply preserves_ret |].
  apply preserves_bind; [apply preserves_plot_path | intros _; exact IH].
Qed.

Lemma preserves_plot_in_order : forall all_paths path_order,
  preserves proj (plot_in_order all_paths path_order).
Proof.
  intros all_paths; induction path_order as [| i order IH]; simpl;
    [apply preserves_ret |].
  apply preserves_bind; [apply preserves_lift | intros points].
  apply preserves_bind; [apply preserves_plot_path | intros _; exact IH].
Qed.

Lemma preserves_plot_options : forall all_paths all_vals,
  preserves proj (plot_options all_paths all_vals).
Proof.
  intros all_paths [value |]; unfold plot_options; [| apply preserves_raise].
  destruct (values value); [apply preserves_raise | apply preserves_plot_in_order].
Qed.

Lemma preserves_random_choice : forall (A : Type) (seq : list A),
  preserves proj (random_choice seq).
Proof. intros A seq s; reflexivity. Qed.

Lemma preserves_sample_environment : forall locs t,
  preserves proj (sample_environment locs t).
Proof. intros locs t s; reflexivity. Qed.

End Preservation.

Create HintDb preserve.

#[local] Hint Resolve preserves_ret preserves_raise preserves_lift
  preserves_get_self preserves_logger_info preserves_warnings_warn
  preserves_update_metrics preserves_savefig preserves_np_savetxt
  preserves_save_figure preserves_plot_path preserves_plot_history
  preserves_plot_options
  preserves_random_choice preserves_sample_environment : preserve.

(** Splits a method along its binds, branches and pattern matches. *)
Ltac preserve_step :=
  match goal with
  | |- preserves _ (bind _ _) => apply preserves_bind; [| intros ?]
  | |- preserves _ (try_except _ _) => apply preserves_try_except
  | |- preserves _ (modify_self _) => apply preserves_modify_self
  | |- preserves _ (if ?c then _ else _) => destruct c
  | |- preserves _ (match ?x with _ => _ end) => destruct x
  | |- preserves _ _ => solve [auto with preserve]
  end.

Ltac preserving := repeat preserve_step.

(** ** The history of running maxima *)

Lemma track_max_maxes : forall (zx : list (pyfloat * row)) (r : Robot),
  maxes (fold_left track_max zx r) = maxes r.
Proof.
  induction zx as [| [z x] zx IH]; intros r; simpl; [reflexivity |].
  rewrite IH; unfold track_max; destruct (float_gtb z (current_max r)); reflexivity.
Qed.

Lemma np_nanmax_maxes : forall a, preserves maxes (np_nanmax a).
Proof. intros a; unfold np_nanmax; preserving. Qed.

Lemma keys_at_nanmax_maxes : forall ks value,
  preserves maxes (keys_at_nanmax ks value).
Proof.
  induction ks as [| k ks IH]; intros value; simpl; preserving;
    first [apply np_nanmax_maxes | apply IH].
Qed.

Lemma pick_best_maxes : forall actions value,
  preserves maxes (pick_best actions value).
Proof.
  intros actions value; unfold pick_best, selection; preserving;
    apply keys_at_nanmax_maxes.
Qed.

Lemma build_param_maxes : forall lib t, preserves maxes (build_param lib t).
Proof. intros lib t; unfold build_param; preserving; intro; reflexivity. Qed.

Lemma choose_trajectory_maxes : forall lib t,
  preserves maxes (choose_trajectory lib t).
Proof.
  intros lib t; unfold choose_trajectory; preserving;
    first [apply build_param_maxes | apply pick_best_maxes].
Qed.

Lemma predict_max_maxes : forall lib, preserves maxes (predict_max lib).
Proof.
  intros lib; unfold predict_max, prediction_grid, mesh_data, predict_value;
    preserving; intro; reflexivity.
Qed.

Lemma collect_observations_maxes : forall xobs,
  preserves maxes (collect_observations xobs).
Proof.
  intros xobs; unfold collect_observations; preserving; intro;
    first [reflexivity | apply track_max_maxes].
Qed.

Lemma select_action_maxes : forall lib t, preserves maxes (select_action lib t).
Proof.
  intros lib t; unfold select_action; preserving;
    first [apply choose_trajectory_maxes | intro; reflexivity].
Qed.

Lemma planner_iteration_maxes : forall lib t,
  preserves maxes (planner_iteration lib t).
Proof.
  intros lib t.
  unfold planner_iteration, observation_locations, visualize_reward,
    visualize_trajectory, mesh_data, predict_value.
  preserving;
    first [ apply predict_max_maxes | apply select_action_maxes
          | apply collect_observations_maxes | intro; reflexivity ].
Qed.

Lemma planner_loop_maxes : forall lib ts, preserves maxes (planner_loop lib ts).
Proof.
  intros lib; induction ts as [| t ts IH]; simpl; preserving;
    first [apply planner_iteration_maxes | exact IH].
Qed.

Lemma planner_maxes : forall lib T, preserves maxes (planner lib T).
Proof.
  intros lib T; unfold planner, export_model; preserving;
    first [apply planner_loop_maxes | intro; reflexivity].
Qed.

Lemma perform_maxes : forall lib op s,
  maxes (self (perform lib op s)) = maxes (self s).
Proof.
  intros lib [t | xobs | | t | T] s; simpl.
  - apply choose_trajectory_maxes.
  - apply collect_observations_maxes.
  - apply predict_max_maxes.
  - apply planner_iteration_maxes.
  - apply planner_maxes.
Qed.

Lemma after_maxes : forall lib ops s,
  maxes (self (after lib ops s)) = maxes (self s).
Proof.
  intros lib; unfold after; induction ops as [| op ops IH]; intros s; simpl;
    [reflexivity |].
  rewrite IH; apply perform_maxes.
Qed.

(** C10. The history [maxes] is empty in the robot that the constructor
    builds and stays empty through every sequence of operations of the agent
    (choices, observation batches, best-estimate queries, iterations and
    whole runs of the planner, whether they return or raise).  Hence, for
    the expected-improvement reward, the parameter built in direct mode at
    any iteration is the one-element list of the current running maximum. *)
Theorem maxes_history_stays_empty :
  forall (lib : Collaborators) (kw : kwargs) (g : RandomState)
         (ops : list operation) (t : Z),
    match Robot_init kw with
    | Ok r =>
        let s := after lib ops (start_runtime r g) in
        maxes r = [] /\
        maxes (self s) = [] /\
        (f_rew (self s) = "exp_improve"%string ->
         reward_parameter lib (self s) t = ParamMaxes [current_max (self s)] /\
         fst (build_param lib t s) = Ok (ParamMaxes [current_max (self s)]))
    | Raise _ => True
    end.
Proof.
  intros lib kw g ops t.
  destruct (Robot_init kw) as [r | e] eqn:Einit; [| exact I].
  destruct (Robot_init_ok kw Einit) as (_ & aq & _ & ->).
  cbv zeta.
  assert (Hempty : maxes (self (after lib ops
                     (start_runtime (fresh_robot kw (init_GP kw) aq) g))) = [])
    by (rewrite after_maxes; reflexivity).
  split; [reflexivity |]; split; [exact Hempty |].
  intros Hrew.
  assert (Hparam : reward_parameter lib
                     (self (after lib ops
                        (start_runtime (fresh_robot kw (init_GP kw) aq) g))) t
                   = ParamMaxes
                       [current_max
                          (self (after lib ops
                             (start_runtime (fresh_robot kw (init_GP kw) aq) g)))]).
  { unfold reward_parameter; rewrite Hrew, Hempty; reflexivity. }
  split; [exact Hparam |].
  rewrite build_param_run; simpl; rewrite Hparam; reflexivity.
Qed.

(** C10, witness: the expected-improvement robot after a run of two
    iterations. *)
Lemma maxes_history_stays_empty_witness :
  exists r,
    Robot_init improvement_kwargs = Ok r /\
    let s := after (collaborators_with displacement) [Planner 2]
                   (start_runtime r (random_of [])) in
    f_rew (self s) = "exp_improve"%string /\
    maxes (self s) = [] /\
    fst (build_param (collaborators_with displacement) 2 s) =
      Ok (ParamMaxes [current_max (self s)]).
Proof.
  eexists; split; [reflexivity |]; cbv zeta.
  pose proof (maxes_history_stays_empty
                (collaborators_with displacement) improvement_kwargs
                (random_of []) [Planner 2] 2%Z) as H.
  change (Robot_init improvement_kwargs)
    with (Ok (fresh_robot improvement_kwargs (init_GP improvement_kwargs)
                          exp_improvement)) in H.
  cbv beta iota zeta in H.
  destruct H as (_ & Hempty & Hparam).
  assert (Hrew : f_rew (self (after (collaborators_with displacement) [Planner 2]
                     (start_runtime
                        (fresh_robot improvement_kwargs
                                     (init_GP improvement_kwargs) exp_improvement)
                        (random_of [])))) = "exp_improve"%string)
    by (vm_compute; reflexivity).
  split; [exact Hrew |]; split; [exact Hempty |].
  exact (proj2 (Hparam Hrew)).
Defined.

(** * The dimension of the world *)

Lemma bind_ok : forall (A C : Type) (m : M A) (f : A -> M C) s a s',
  m s = (Ok a, s') -> bind m f s = f a s'.
Proof. intros A C m f s a s' H; unfold bind; rewrite H; reflexivity. Qed.

Lemma bind_raise : forall (A C : Type) (m : M A) (f : A -> M C) s e s',
  m s = (Raise e, s') -> bind m f s = (Raise e, s').
Proof. intros A C m f s e s' H; unfold bind; rewrite H; reflexivity. Qed.

(** With candidates, [choose_trajectory] returns one of them. *)
Lemma choose_trajectory_returns : forall lib t s,
  generate_trajectories (self s) t <> [] ->
  exists path v n ws,
    choose_trajectory lib t s =
      (Ok (path, v, generate_trajectories (self s) t,
           current_scores lib (self s) t),
       advanced n (warned ws (with_self (remember_maxima lib (self s) t) s))) /\
    In path (generate_trajectories (self s) t).
Proof.
  intros lib t s Hne; rewrite choose_trajectory_run.
  set (g := fun a => aqlib_reward lib (aquisition_function (self s)) t a
                                  (GP (self s)) (reward_parameter lib (self s) t)).
  change (current_scores lib (self s) t)
    with (scored g (generate_trajectories (self s) t)).
  destruct (tied_keys (scored g (generate_trajectories (self s) t)))
    as [| k0 tied] eqn:E.
  - destruct (@pick_best_fallback g (generate_trajectories (self s) t)
                (with_self (remember_maxima lib (self s) t) s) E Hne)
      as (a & Ha & Hrun).
    exists a, (g a), 2%nat; eexists; split; [exact Hrun |].
    eapply nth_error_In; exact Ha.
  - assert (Htied : tied_keys (scored g (generate_trajectories (self s) t)) <> [])
      by (rewrite E; discriminate).
    destruct (@pick_best_tied g (generate_trajectories (self s) t)
                (with_self (remember_maxima lib (self s) t) s) Htied)
      as (k & a & _ & Ha & Hrun).
    exists a, (g a), 1%nat; eexists; split; [exact Hrun |].
    eapply nth_error_In; exact Ha.
Qed.

Lemma select_action_myopic : forall lib t s,
  nonmyopic (self s) = false ->
  generate_trajectories (self s) t <> [] ->
  exists path v n ws,
    select_action lib t s =
      (Ok (Some path, v, generate_trajectories (self s) t,
           current_scores lib (self s) t),
       advanced n (warned ws (with_self (remember_maxima lib (self s) t) s))) /\
    In path (generate_trajectories (self s) t).
Proof.
  intros lib t s Hmode Hne.
  destruct (choose_trajectory_returns lib t s Hne) as (path & v & n & ws & Hrun & Hin).
  exists path, v, n, ws; split; [| exact Hin].
  unfold select_action, bind at 1, get_self; rewrite Hmode; cbn [negb].
  erewrite bind_ok by exact Hrun; reflexivity.
Qed.

Lemma init_GP_without_prior : forall kw : kwargs,
  kw_prior_dataset kw = None -> xvals (init_GP kw) = None.
Proof.
  intros kw H; unfold init_GP, configure_GP, incorporate_prior, resolve_kernel;
    rewrite H.
  destruct (kw_kernel_dataset kw), (String.eqb (kw_kernel kw) "rbf"),
    (kw_kernel_file kw); reflexivity.
Qed.

Lemma observation_locations_bad_dim : forall r t path s,
  dim r <> 2%Z -> dim r <> 3%Z -> path <> [] ->
  observation_locations r t path s = (Raise unsupported_dimension, s).
Proof.
  intros r t [| p path] s H2 H3 Hne; [contradiction |].
  unfold observation_locations.
  destruct (Z.eqb_spec (dim r) 2); [contradiction |].
  destruct (Z.eqb_spec (dim r) 3); [contradiction |].
  reflexivity.
Qed.

(** In a world of another dimension, with an empty belief, the myopic
    iteration logs, selects an action, records its metrics and then raises. *)
Lemma planner_iteration_bad_dim : forall lib t s,
  dim (self s) <> 2%Z -> dim (self s) <> 3%Z ->
  xvals (GP (self s)) = None ->
  nonmyopic (self s) = false ->
  generate_trajectories (self s) t <> [] ->
  (forall path, In path (generate_trajectories (self s) t) -> path <> []) ->
  exists s',
    planner_iteration lib t s = (Raise unsupported_dimension, s') /\
    List.length (eval_log s') = S (List.length (eval_log s)) /\
    env_calls s' = env_calls s /\
    GP (self s') = GP (self s) /\
    saved s' = saved s.
Proof.
  intros lib t s H2 H3 Hx Hmode Hne Hpaths.
  unfold planner_iteration.
  erewrite bind_ok by reflexivity.
  erewrite bind_ok by reflexivity.
  erewrite bind_ok by reflexivity.
  erewrite bind_ok by (apply predict_max_empty; exact Hx).
  cbv beta iota.
  erewrite bind_ok by reflexivity.
  match goal with
  | |- exists s', bind (select_action lib t) _ ?st = _ /\ _ =>
      destruct (@select_action_myopic lib t st Hmode Hne)
        as (path & v & n & ws & Hrun & Hin)
  end.
  erewrite bind_ok by exact Hrun.
  cbv beta iota.
  erewrite bind_ok by reflexivity.
  erewrite bind_ok by reflexivity.
  cbv beta iota.
  destruct (remember_maxima_keeps lib (set_time t (self s)) t)
    as (HGP & _ & _ & _ & _ & _ & Hdim & _).
  erewrite bind_raise.
  2:{ apply observation_locations_bad_dim.
      - simpl self; rewrite Hdim; exact H2.
      - simpl self; rewrite Hdim; exact H3.
      - apply Hpaths; exact Hin. }
  eexists; split; [reflexivity |]; simpl.
  split; [rewrite length_app; simpl; lia |].
  split; [reflexivity |]; split; [exact HGP | reflexivity].
Qed.



(** X14. The planner has a test of the dimension of its own, which a robot
    meets only when its [dim] attribute was given another value after
    construction.  For such a robot in direct mode, with a belief that never
    received data and a non-empty set of non-empty candidates, a run of at
    least one iteration raises the ValueError 'Only 2D or 3D worlds
    supported!' in its first iteration: after the action was selected and
    its metrics were recorded, before any observation is collected; the
    belief is untouched and nothing is exported. *)
Theorem planner_tests_the_dimension_after_the_selection :
  forall (lib : Collaborators) (T : nat) (s : Runtime),
    dim (self s) <> 2%Z -> dim (self s) <> 3%Z ->
    xvals (GP (self s)) = None ->
    nonmyopic (self s) = false ->
    generate_trajectories (self s) 0 <> [] ->
    (forall path, In path (generate_trajectories (self s) 0) -> path <> []) ->
    let out := planner lib (S T) s in
    fst out = Raise unsupported_dimension /\
    List.length (eval_log (snd out)) = S (List.length (eval_log s)) /\
    env_calls (snd out) = env_calls s /\
    GP (self (snd out)) = GP (self s) /\
    saved (snd out) = saved s.
Proof.
  intros lib T s H2 H3 Hx Hmode Hne Hpaths; cbv zeta.
  unfold planner.
  erewrite bind_ok by reflexivity.
  erewrite bind_ok by reflexivity.
  change (map Z.of_nat (seq 0 (S T)))
    with (0%Z :: map Z.of_nat (seq 1 T)).
  match goal with
  | |- fst (bind (planner_loop lib _) _ ?st) = _ /\ _ =>
      destruct (@planner_iteration_bad_dim lib 0%Z st H2 H3 Hx Hmode Hne Hpaths)
        as (s' & Hrun & Hlog & Henv & HGP & Hsaved)
  end.
  erewrite bind_raise.
  2:{ simpl planner_loop; erewrite bind_raise by exact Hrun; reflexivity. }
  simpl fst; simpl snd.
  split; [reflexivity |].
  split; [rewrite Hlog; reflexivity |].
  split; [rewrite Henv; reflexivity |].
  split; [rewrite HGP; reflexivity | rewrite Hsaved; reflexivity].
Qed.

(** X14, witness: a robot whose dimension attribute is 4, with the three
    candidates of the scenario. *)
Lemma planner_tests_the_dimension_after_the_selection_witness :
  dim (self four_dim_start) <> 2%Z /\
  dim (self four_dim_start) <> 3%Z /\
  xvals (GP (self four_dim_start)) = None /\
  nonmyopic (self four_dim_start) = false /\
  generate_trajectories (self four_dim_start) 0 <> [] /\
  fst (planner (collaborators_with displacement) 3 four_dim_start)
  = Raise unsupported_dimension /\
  env_calls (snd (planner (collaborators_with displacement) 3 four_dim_start))
  = [].
Proof.
  assert (H2 : dim (self four_dim_start) <> 2%Z) by discriminate.
  assert (H3 : dim (self four_dim_start) <> 3%Z) by discriminate.
  assert (Hx : xvals (GP (self four_dim_start)) = None) by reflexivity.
  assert (Hm : nonmyopic (self four_dim_start) = false) by reflexivity.
  assert (Hne : generate_trajectories (self four_dim_start) 0 <> [])
    by discriminate.
  assert (Hp : forall path,
             In path (generate_trajectories (self four_dim_start) 0) -> path <> [])
    by (intros path [<- | [<- | [<- | []]]]; discriminate).
  split; [exact H2 |]; split; [exact H3 |]; split; [exact Hx |].
  split; [exact Hm |]; split; [exact Hne |].
  destruct (@planner_tests_the_dimension_after_the_selection
              (collaborators_with displacement) 2%nat four_dim_start
              H2 H3 Hx Hm Hne Hp)
    as (Hres & _ & Henv & _).
  split; [exact Hres | exact Henv].
Defined.

(** * Further properties of [collect_observations] *)

Lemma float_gtb_trans : forall a b c,
  float_gtb a b = true -> float_gtb b c = true -> float_gtb a c = true.
Proof.
  intros [| x] [| y] [| z]; simpl; try discriminate.
  intros H1 H2.
  destruct (Qle_bool x y) eqn:E1; [discriminate |].
  destruct (Qle_bool y z) eqn:E2; [discriminate |].
  apply Qle_bool_false in E1; apply Qle_bool_false in E2.
  destruct (Qle_bool x z) eqn:E3; [| reflexivity].
  apply Qle_bool_iff in E3; lra.
Qed.

(** The loop over the pairs either leaves the tracker as it was or leaves it
    on one of the pairs, whose value exceeds the value tracked before. *)
Lemma track_max_pair : forall (zx : list (pyfloat * row)) (r : Robot),
  let r' := fold_left track_max zx r in
  (current_max r' = current_max r /\ current_max_loc r' = current_max_loc r) \/
  (exists i z x,
      nth_error zx i = Some (z, x) /\
      current_max r' = z /\ current_max_loc r' = (c0 x, c1 x) /\
      float_gtb z (current_max r) = true).
Proof.
  induction zx as [| [z x] zx IH]; intros r; simpl; [left; split; reflexivity |].
  unfold track_max at 2.
  destruct (float_gtb z (current_max r)) eqn:E.
  - right.
    destruct (IH (set_current_max_loc (c0 x, c1 x) (set_current_max z r)))
      as [[Hv Hl] | (i & z' & x' & Hnth & Hv & Hl & Hgt)].
    + exists 0%nat, z, x; repeat split; assumption.
    + exists (S i), z', x'; repeat split; try assumption.
      simpl in Hgt; apply float_gtb_trans with z; assumption.
  - destruct (IH r) as [H | (i & z' & x' & Hnth & Hv & Hl & Hgt)];
      [left; exact H | right].
    exists (S i), z', x'; repeat split; assumption.
Qed.

Lemma nth_error_combine_inv : forall (A B : Type) (l : list A) (l' : list B) i a b,
  nth_error (combine l l') i = Some (a, b) ->
  nth_error l i = Some a /\ nth_error l' i = Some b.
Proof.
  induction l as [| x l IH]; intros [| y l'] i a b H; simpl in H;
    try (destruct i; discriminate).
  destruct i as [| i]; simpl in *.
  - injection H as <- <-; split; reflexivity.
  - apply IH; exact H.
Qed.

Lemma nth_error_removelast : forall (A : Type) (l : list A) i x,
  nth_error (removelast l) i = Some x -> nth_error l i = Some x.
Proof.
  induction l as [| a [| b l] IH]; intros i x H; simpl in H.
  - destruct i; discriminate.
  - destruct i; discriminate.
  - destruct i as [| i]; simpl in *; [exact H | apply IH; exact H].
Qed.

Lemma nth_error_tl : forall (A : Type) (l : list A) i x,
  nth_error (tl l) i = Some x -> nth_error l (S i) = Some x.
Proof. intros A [| a l] i x H; simpl in *; [destruct i; discriminate | exact H]. Qed.

(** X2. After [collect_observations] the tracker is either as it was, value
    and location, or it holds a value that exceeds the one tracked before
    and that was sampled at some waypoint [xobs[i]], together with the
    coordinates of the waypoint that follows it, [xobs[i+1]]. *)
Theorem tracker_pairs_sample_with_next_waypoint :
  forall (xobs : list row) (s : Runtime),
    let r := self s in
    let r' := self (snd (collect_observations xobs s)) in
    (current_max r' = current_max r /\ current_max_loc r' = current_max_loc r) \/
    (exists i sampled next,
        nth_error xobs i = Some sampled /\
        nth_error xobs (S i) = Some next /\
        current_max r' = measure_environment r sampled (time r) /\
        float_gtb (current_max r') (current_max r) = true /\
        current_max_loc r' = (c0 next, c1 next)).
Proof.
  intros xobs s r r'; subst r'; rewrite collect_observations_run; simpl self.
  fold r.
  set (zobs := map (fun x => measure_environment r x (time r)) (removelast xobs)).
  destruct (track_max_pair (combine zobs (tl xobs))
                           (set_GP (add_data (removelast xobs) zobs (GP r)) r))
    as [H | (i & z & x & Hnth & Hv & Hl & Hgt)]; [left; exact H | right].
  apply nth_error_combine_inv in Hnth; destruct Hnth as [Hz Hx].
  subst zobs; rewrite nth_error_map in Hz.
  destruct (nth_error (removelast xobs) i) as [sampled |] eqn:Es; [| discriminate].
  simpl in Hz; injection Hz as Hz.
  exists i, sampled, x.
  split; [apply nth_error_removelast; exact Es |].
  split; [apply nth_error_tl; exact Hx |].
  split; [rewrite Hv; symmetry; exact Hz |].
  split; [rewrite Hv; exact Hgt | exact Hl].
Qed.

(** * Properties of the accumulated distance *)

Lemma last_cons_default : forall (A : Type) (l : list A) (a d : A),
  last (a :: l) d = last l a.
Proof.
  induction l as [| b l IH]; intros a d; [reflexivity |].
  change (last (a :: b :: l) d) with (last (b :: l) d).
  rewrite (IH b d), (IH b a); reflexivity.
Qed.

Lemma travelled_over_app :
  forall (lib : Collaborators) (p q : trajectory_t) (start : row) (d : Q),
    travelled lib start (p ++ q) d =
    travelled lib (last p start) q (travelled lib start p d).
Proof.
  intros lib p q; induction p as [| m p IH]; intros start d; [reflexivity |].
  simpl app; simpl travelled at 1 3.
  rewrite IH, last_cons_default; reflexivity.
Qed.

(** X3. The distance loop composes: walking a path that is the concatenation
    of two paths accumulates the first, then the second from the last
    waypoint of the first. *)
Theorem travelled_app :
  forall (lib : Collaborators) (p q : trajectory_t) (start : row) (d : Q),
    travelled lib start (p ++ q) d =
    travelled lib (last p start) q (travelled lib start p d).
Proof. exact travelled_over_app. Qed.

(** * How the methods change the state

    A relation [R] between the state before and the states after, closed
    under composition, holds along a method as soon as it holds along each
    assignment and effect the method is made of. *)

Section Evolution.

Variable lib : Collaborators.
Variable R : Runtime -> Runtime -> Prop.

Hypothesis R_refl : forall s, R s s.
Hypothesis R_trans : forall s1 s2 s3, R s1 s2 -> R s2 s3 -> R s1 s3.

(** The effects outside the robot. *)
Hypothesis R_log : forall msg s, R s (snd (logger_info msg s)).
Hypothesis R_warn : forall w s, R s (snd (warnings_warn w s)).
Hypothesis R_draw : forall s, R s (advanced 1 s).
Hypothesis R_metrics : forall m s, R s (snd (update_metrics m s)).
Hypothesis R_figure : forall f s, R s (snd (savefig f s)).
Hypothesis R_file : forall name content s, R s (snd (write_file name content s)).
Hypothesis R_makedirs : forall d s, R s (snd (os_makedirs d s)).

(** The assignments to the attributes of the robot. *)
Hypothesis R_time : forall t s, R s (with_self (set_time t (self s)) s).
Hypothesis R_maxima : forall mv ml tg s,
  R s (with_self (set_target tg (set_max_locs ml (set_max_val mv (self s)))) s).
Hypothesis R_search : forall mv ml s,
  R s (with_self (set_max_val mv (set_max_locs ml (self s))) s).
Hypothesis R_predict : forall data s,
  R s (with_self (set_GP (gp_record (PredictValue data) (GP (self s))) (self s)) s).
Hypothesis R_collect : forall xobs s, R s (snd (collect_observations xobs s)).
Hypothesis R_trajectory : forall v s,
  R s (with_self (set_trajectory v (self s)) s).
Hypothesis R_dist : forall v s, R s (with_self (set_dist v (self s)) s).
Hypothesis R_loc : forall v s, R s (with_self (set_loc v (self s)) s).

Lemma evolves_ret : forall (A : Type) (a : A), evolves R (ret a).
Proof. intros A a s; apply R_refl. Qed.

Lemma evolves_raise : forall (A : Type) (e : exn), evolves R (@raise A e).
Proof. intros A e s; apply R_refl. Qed.

Lemma evolves_lift : forall (A : Type) (x : result A), evolves R (lift x).
Proof. intros A x s; apply R_refl. Qed.

Lemma evolves_get_self : evolves R get_self.
Proof. intros s; apply R_refl. Qed.

Lemma evolves_bind : forall (A C : Type) (m : M A) (f : A -> M C),
  evolves R m -> (forall a, evolves R (f a)) -> evolves R (bind m f).
Proof.
  intros A C m f Hm Hf s; unfold bind.
  specialize (Hm s); destruct (m s) as [[a | e] s']; simpl in *.
  - apply R_trans with s'; [exact Hm | apply Hf].
  - exact Hm.
Qed.

Lemma evolves_try_except : forall (A : Type) (body handler : M A),
  evolves R body -> evolves R handler -> evolves R (try_except body handler).
Proof.
  intros A body handler Hb Hh s; unfold try_except.
  specialize (Hb s); destruct (body s) as [[a | e] s']; simpl in *.
  - exact Hb.
  - apply R_trans with s'; [exact Hb | apply Hh].
Qed.

Lemma evolves_random_choice : forall (A : Type) (seq : list A),
  evolves R (random_choice seq).
Proof. intros A seq s; rewrite random_choice_run; apply R_draw. Qed.

Lemma evolves_np_nanmax : forall a, evolves R (np_nanmax a).
Proof.
  intros [| x rest]; simpl; [apply evolves_raise |].
  destruct (isnan (nanmax_of x rest)); [| apply evolves_ret].
  apply evolves_bind; [intros s; apply R_warn | intros; apply evolves_ret].
Qed.

Lemma evolves_keys_at_nanmax : forall ks value,
  evolves R (keys_at_nanmax ks value).
Proof.
  induction ks as [| k ks IH]; intros value; simpl; [apply evolves_ret |].
  apply evolves_bind; [apply evolves_lift | intros v].
  apply evolves_bind; [apply evolves_np_nanmax | intros m].
  apply evolves_bind; [apply IH | intros; apply evolves_ret].
Qed.

Lemma evolves_selection : forall actions value k,
  evolves R (selection actions value k).
Proof.
  intros actions value k; unfold selection.
  apply evolves_bind; [apply evolves_lift | intros a].
  apply evolves_bind; [apply evolves_lift | intros; apply evolves_ret].
Qed.

Lemma evolves_pick_best : forall actions value,
  evolves R (pick_best actions value).
Proof.
  intros actions value; unfold pick_best; apply evolves_try_except.
  - apply evolves_bind; [apply evolves_keys_at_nanmax | intros ks].
    apply evolves_bind; [apply evolves_random_choice | intros k].
    apply evolves_selection.
  - apply evolves_bind; [apply evolves_random_choice | intros k].
    apply evolves_selection.
Qed.

Lemma evolves_choose_trajectory : forall t, evolves R (choose_trajectory lib t).
Proof.
  intros t s; rewrite choose_trajectory_run.
  apply R_trans with (with_self (remember_maxima lib (self s) t) s).
  - unfold remember_maxima.
    destruct (String.eqb (f_rew (self s)) "mes");
      [| rewrite with_self_self; apply R_refl].
    destruct (aqlib_sample_max_vals lib (GP (self s)) t (obstacle_world (self s)))
      as [[mv ml] tg].
    apply R_maxima.
  - apply evolves_pick_best.
Qed.

Lemma evolves_mesh_data : forall r num, evolves R (mesh_data r num).
Proof.
  intros r num; unfold mesh_data.
  destruct (ranges r) as [[[lo1 hi1] lo2] hi2].
  destruct (Z.eqb (dim r) 2); [apply evolves_ret |].
  destruct (Z.eqb (dim r) 3); [apply evolves_ret | apply evolves_raise].
Qed.

Lemma evolves_predict_value : forall data, evolves R (predict_value lib data).
Proof. intros data s; apply R_predict. Qed.

Lemma evolves_predict_max : evolves R (predict_max lib).
Proof.
  unfold predict_max; apply evolves_bind; [apply evolves_get_self | intros r].
  destruct (xvals (GP r)); [| apply evolves_ret].
  apply evolves_bind; [apply evolves_mesh_data | intros data].
  apply evolves_bind; [apply evolves_predict_value | intros [observations var]].
  apply evolves_bind; [apply evolves_lift | intros i].
  apply evolves_bind; [apply evolves_lift | intros x].
  apply evolves_bind; [apply evolves_lift | intros; apply evolves_ret].
Qed.

Lemma evolves_select_action : forall t, evolves R (select_action lib t).
Proof.
  intros t; unfold select_action.
  apply evolves_bind; [apply evolves_get_self | intros r].
  destruct (negb (nonmyopic r)).
  - apply evolves_bind; [apply evolves_choose_trajectory |].
    intros [[[p v] a] vals]; apply evolves_ret.
  - destruct (mcts_choose_trajectory lib r _ t) as [[[[[p v] a] vals] ml] mv].
    apply evolves_bind; [intros s; apply R_search | intros; apply evolves_ret].
Qed.

Lemma evolves_os_path_exists : forall d, evolves R (os_path_exists d).
Proof. intros d s; apply R_refl. Qed.

Lemma evolves_save_figure : forall dir f, evolves R (save_figure dir f).
Proof.
  intros dir f; unfold save_figure.
  apply evolves_bind; [apply evolves_os_path_exists | intros there].
  apply evolves_bind; [| intros _ s; apply R_figure].
  destruct (negb there); [intros s; apply R_makedirs | apply evolves_ret].
Qed.

Lemma evolves_np_savetxt : forall dir file content,
  evolves R (np_savetxt dir file content).
Proof.
  intros dir file content; unfold np_savetxt.
  apply evolves_bind; [apply evolves_os_path_exists | intros there].
  destruct there; [intros s; apply R_file | apply evolves_raise].
Qed.

Lemma evolves_plot_path : forall path, evolves R (plot_path path).
Proof. intros [| p path]; [apply evolves_raise | apply evolves_ret]. Qed.

Lemma evolves_plot_history : forall paths, evolves R (plot_history paths).
Proof.
  induction paths as [| path paths IH]; simpl; [apply evolves_ret |].
  apply evolves_bind; [apply evolves_plot_path | intros _; exact IH].
Qed.

Lemma evolves_plot_in_order : forall all_paths path_order,
  evolves R (plot_in_order all_paths path_order).
Proof.
  intros all_paths; induction path_order as [| i order IH]; simpl;
    [apply evolves_ret |].
  apply evolves_bind; [apply evolves_lift | intros points].
  apply evolves_bind; [apply evolves_plot_path | intros _; exact IH].
Qed.

Lemma evolves_plot_options : forall all_paths all_vals,
  evolves R (plot_options all_paths all_vals).
Proof.
  intros all_paths [value |]; unfold plot_options; [| apply evolves_raise].
  destruct (values value); [apply evolves_raise | apply evolves_plot_in_order].
Qed.

Lemma evolves_visualize_reward : forall t, evolves R (visualize_reward t).
Proof.
  intros t; unfold visualize_reward.
  apply evolves_bind; [apply evolves_get_self | intros r].
  apply evolves_bind; [apply evolves_mesh_data | intros data].
  apply evolves_save_figure.
Qed.

Lemma evolves_visualize_trajectory :
  forall screen filename best_path maxes all_paths all_vals,
    evolves R (visualize_trajectory lib screen filename best_path maxes
                                    all_paths all_vals).
Proof.
  intros screen filename best_path maxes all_paths all_vals.
  unfold visualize_trajectory.
  apply evolves_bind; [apply evolves_get_self | intros r].
  apply evolves_bind; [apply evolves_mesh_data | intros data].
  apply evolves_bind; [apply evolves_predict_value | intros [observations var]].
  apply evolves_bind; [apply evolves_get_self | intros r'].
  apply evolves_bind; [apply evolves_plot_history | intros _].
  apply evolves_bind;
    [destruct all_paths; [apply evolves_plot_options | apply evolves_ret]
    | intros _].
  apply evolves_bind;
    [destruct best_path; [apply evolves_plot_path | apply evolves_ret]
    | intros _].
  destruct screen; [apply evolves_ret | apply evolves_save_figure].
Qed.

Lemma evolves_observation_locations : forall r t path,
  evolves R (observation_locations r t path).
Proof.
  intros r t [| p path]; simpl; [apply evolves_raise |].
  destruct (Z.eqb (dim r) 2); [apply evolves_ret |].
  destruct (Z.eqb (dim r) 3); [apply evolves_ret | apply evolves_raise].
Qed.

Lemma evolves_planner_iteration : forall t,
  evolves R (planner_iteration lib t).
Proof.
  intros t; unfold planner_iteration.
  apply evolves_bind; [intros s; apply R_time | intros _].
  apply evolves_bind; [apply evolves_get_self | intros r0].
  apply evolves_bind; [intros s; apply R_log | intros _].
  apply evolves_bind; [apply evolves_predict_max | intros [pred_loc pred_val]].
  apply evolves_bind; [intros s; apply R_log | intros _].
  apply evolves_bind; [apply evolves_select_action |].
  intros [[[sampling_path best_val] all_paths] all_values].
  apply evolves_bind; [apply evolves_get_self | intros r].
  apply evolves_bind; [intros s; apply R_metrics | intros _].
  destruct sampling_path as [path |]; [| apply evolves_ret].
  apply evolves_bind; [apply evolves_observation_locations | intros xlocs].
  apply evolves_bind;
    [destruct (Z.eqb (t mod 10) 0);
       [apply evolves_visualize_reward | apply evolves_ret] | intros _].
  apply evolves_bind; [intros s; apply R_collect | intros _].
  apply evolves_bind; [intros s; apply R_trajectory | intros _].
  apply evolves_bind; [intros s; apply R_dist | intros _].
  apply evolves_bind; [apply evolves_get_self | intros r'].
  apply evolves_bind;
    [destruct (Z.eqb (t mod 10) 0);
       [apply evolves_visualize_trajectory | apply evolves_ret] | intros _].
  apply evolves_bind; [intros s; apply R_loc | intros; apply evolves_ret].
Qed.

Lemma evolves_planner_loop : forall ts, evolves R (planner_loop lib ts).
Proof.
  induction ts as [| t ts IH]; simpl; [apply evolves_ret |].
  apply evolves_bind; [apply evolves_planner_iteration | intros stop].
  destruct stop; [apply evolves_ret | exact IH].
Qed.

Lemma evolves_export_model : evolves R export_model.
Proof.
  unfold export_model; apply evolves_bind; [apply evolves_get_self | intros r].
  destruct (xvals (GP r)); [| apply evolves_raise].
  destruct (zvals (GP r)); [| apply evolves_raise].
  apply evolves_np_savetxt.
Qed.

Lemma evolves_planner : forall T, evolves R (planner lib T).
Proof.
  intros T; unfold planner.
  apply evolves_bind; [intros s; apply R_trajectory | intros _].
  apply evolves_bind; [intros s; apply R_dist | intros _].
  apply evolves_bind; [apply evolves_planner_loop | intros _].
  apply evolves_export_model.
Qed.

Lemma evolves_perform : forall op s, R s (perform lib op s).
Proof.
  intros [t | xobs | | t | T] s; simpl.
  - apply evolves_choose_trajectory.
  - apply R_collect.
  - apply evolves_predict_max.
  - apply evolves_planner_iteration.
  - apply evolves_planner.
Qed.

Lemma evolves_after : forall ops s, R s (after lib ops s).
Proof.
  unfold after; intros ops; induction ops as [| op ops IH]; intros s; simpl;
    [apply R_refl |].
  apply R_trans with (perform lib op s); [apply evolves_perform | apply IH].
Qed.

End Evolution.

(** * The tracked maximum and the calls on the belief along a run *)

Lemma tracker_le_refl : forall a, tracker_le a a.
Proof. intros [| x]; simpl; [exact I | lra]. Qed.

Lemma tracker_le_trans : forall a b c,
  tracker_le a b -> tracker_le b c -> tracker_le a c.
Proof. intros [| x] [| y] [| z]; simpl; try tauto; intros; lra. Qed.

Lemma tracker_le_running_max : forall m zs, tracker_le m (running_max m zs).
Proof.
  intros [| b] zs.
  - rewrite running_max_nan; exact I.
  - destruct (running_max_num zs b) as (c & -> & Hbc & _); exact Hbc.
Qed.

(** X4. Whatever the agent does (choices, observation batches, best-estimate
    queries, iterations and runs of the planner, returning or raising), the
    tracked maximum never decreases: from a number it goes to a number that
    is not smaller. *)
Theorem tracked_maximum_never_decreases :
  forall (lib : Collaborators) (ops : list operation) (s : Runtime),
    tracker_le (current_max (self s)) (current_max (self (after lib ops s))).
Proof.
  intros lib ops s.
  change (tracker_grows s (after lib ops s)).
  apply evolves_after; unfold tracker_grows;
    try (intros; simpl; apply tracker_le_refl).
  - intros s1 s2 s3; apply tracker_le_trans.
  - intros xobs s0.
    destruct (collect_observations_current_max xobs s0) as (-> & _).
    apply tracker_le_running_max.
Qed.

(** X5. Whatever the agent does after construction, it calls on its belief
    model only to add observations or to predict: the kernel is never fitted
    or loaded again. *)
Theorem belief_is_only_observed_after_construction :
  forall (lib : Collaborators) (ops : list operation) (s : Runtime),
    exists l,
      gp_calls (GP (self (after lib ops s))) = gp_calls (GP (self s)) ++ l /\
      Forall observation_call l.
Proof.
  intros lib ops s.
  change (belief_calls_extend s (after lib ops s)).
  apply evolves_after; unfold belief_calls_extend;
    try (intros; exists []; split; [simpl; rewrite app_nil_r; reflexivity
                                   | constructor]).
  - intros s1 s2 s3 (l1 & E1 & H1) (l2 & E2 & H2).
    exists (l1 ++ l2); split; [rewrite E2, E1, app_assoc; reflexivity |].
    apply Forall_app; split; assumption.
  - intros data s0; exists [PredictValue data]; split; [reflexivity |].
    repeat constructor.
  - intros xobs s0; rewrite collect_observations_run; simpl.
    rewrite track_max_GP; eexists; split; [reflexivity |].
    repeat constructor.
Qed.

(** * One iteration of the planner *)

Lemma frame_refl : forall s, frame s s.
Proof. intros s; split; reflexivity. Qed.

Lemma frame_trans : forall s1 s2 s3, frame s1 s2 -> frame s2 s3 -> frame s1 s3.
Proof. intros s1 s2 s3 [H1 H2] [H3 H4]; split; congruence. Qed.

Lemma predict_max_frame : forall lib s, frame s (snd (predict_max lib s)).
Proof.
  intros lib s; apply evolves_predict_max;
    first [apply frame_refl | apply frame_trans | intros; split; reflexivity].
Qed.

Lemma select_action_frame : forall lib t s,
  frame s (snd (select_action lib t s)).
Proof.
  intros lib t s; apply evolves_select_action;
    first [apply frame_refl | apply frame_trans | intros; split; reflexivity].
Qed.

(** Whether it returns or raises, the plot of the trajectories moves nothing. *)
Lemma visualize_trajectory_frame :
  forall lib screen filename best_path maxes all_paths all_vals s,
    frame s (snd (visualize_trajectory lib screen filename best_path maxes
                                       all_paths all_vals s)).
Proof.
  intros lib screen filename best_path maxes all_paths all_vals s.
  apply evolves_visualize_trajectory;
    first [apply frame_refl | apply frame_trans | intros; split; reflexivity].
Qed.

(** Neither the best estimate nor the selection changes the iteration time
    or the dimension. *)
Lemma predict_max_time_dim : forall lib s,
  time (self (snd (predict_max lib s))) = time (self s) /\
  dim (self (snd (predict_max lib s))) = dim (self s).
Proof.
  intros lib s.
  apply (@evolves_predict_max lib
           (fun a b => time (self b) = time (self a) /\
                       dim (self b) = dim (self a)));
    try (intros; split; reflexivity).
  intros s1 s2 s3 [H1 H2] [H3 H4]; split; congruence.
Qed.

Lemma select_action_time_dim : forall lib t s,
  time (self (snd (select_action lib t s))) = time (self s) /\
  dim (self (snd (select_action lib t s))) = dim (self s).
Proof.
  intros lib t s.
  apply (@evolves_select_action lib
           (fun a b => time (self b) = time (self a) /\
                       dim (self b) = dim (self a)));
    try (intros; split; reflexivity).
  intros s1 s2 s3 [H1 H2] [H3 H4]; split; congruence.
Qed.

Lemma track_max_keeps : forall (B : Type) (proj : Robot -> B),
  (forall v r, proj (set_current_max v r) = proj r) ->
  (forall v r, proj (set_current_max_loc v r) = proj r) ->
  forall (zx : list (pyfloat * row)) (r : Robot),
    proj (fold_left track_max zx r) = proj r.
Proof.
  intros B proj H1 H2; induction zx as [| [z x] zx IH]; intros r; simpl;
    [reflexivity |].
  rewrite IH; unfold track_max.
  destruct (float_gtb z (current_max r)); [rewrite H2, H1 |]; reflexivity.
Qed.

Lemma mesh_data_run : forall r num s,
  dim r = 2%Z \/ dim r = 3%Z -> exists data, mesh_data r num s = (Ok data, s).
Proof.
  intros r num s H; unfold mesh_data.
  destruct (ranges r) as [[[lo1 hi1] lo2] hi2].
  destruct H as [-> | ->]; eexists; reflexivity.
Qed.

(** Saving a figure returns; the directory exists afterwards. *)
Lemma save_figure_run : forall dir f s,
  exists s', save_figure dir f s = (Ok tt, s') /\
             self s' = self s /\ env_calls s' = env_calls s /\
             saved s' = saved s /\
             existsb (String.eqb dir) (directories s') = true.
Proof.
  intros dir f s; unfold save_figure, bind, os_path_exists.
  destruct (existsb (String.eqb dir) (directories s)) eqn:E; simpl;
    eexists; (split; [reflexivity |]); simpl; repeat split; try exact E.
  rewrite existsb_app; simpl; rewrite String.eqb_refl, orb_true_r; reflexivity.
Qed.

Lemma visualize_reward_run : forall t s,
  dim (self s) = 2%Z \/ dim (self s) = 3%Z ->
  exists s', visualize_reward t s = (Ok tt, s') /\
             self s' = self s /\ env_calls s' = env_calls s /\
             saved s' = saved s /\
             existsb (String.eqb (figures_dir (self s))) (directories s') = true.
Proof.
  intros t s H; unfold visualize_reward.
  erewrite bind_ok by reflexivity.
  destruct (@mesh_data_run (self s) 100 s H) as (data & E).
  erewrite bind_ok by exact E.
  apply save_figure_run.
Qed.

(** The observation locations are built, one per waypoint, exactly when the
    trajectory is not empty and the world has 2 or 3 dimensions. *)
Lemma observation_locations_cases : forall r t path s,
  (exists e, observation_locations r t path s = (Raise e, s)) \/
  (observation_locations r t path s = (Ok (observation_rows (dim r) t path), s) /\
   path <> [] /\ (dim r = 2%Z \/ dim r = 3%Z)).
Proof.
  intros r t [| p path] s; [left; eexists; reflexivity |].
  unfold observation_locations, observation_rows.
  destruct (Z.eqb_spec (dim r) 2) as [E2 | E2].
  - right; rewrite E2; split; [reflexivity |].
    split; [discriminate | left; reflexivity].
  - destruct (Z.eqb_spec (dim r) 3) as [E3 | E3].
    + right; split; [reflexivity |].
      split; [discriminate | right; exact E3].
    + left; eexists; reflexivity.
Qed.

(** The part of the loop body that executes the chosen trajectory: the
    sampler is called, the trajectory is recorded and the distance grows;
    then either the pose moves and the body returns, or the plot of the
    trajectories has raised and the pose stays behind. *)
Lemma execution_run :
  forall lib t path xlocs all_paths all_values s (show : bool),
  dim (self s) = 2%Z \/ dim (self s) = 3%Z ->
  path <> [] ->
  exists res s',
    bind (if show then visualize_reward t else ret tt)
      (fun _ =>
       bind (collect_observations xlocs)
         (fun _ =>
          bind (modify_self (fun r => set_trajectory (trajectory r ++ [path]) r))
            (fun _ =>
             bind (modify_self
                     (fun r => set_dist (travelled lib (loc r) path (dist r)) r))
               (fun _ =>
                bind get_self
                  (fun r =>
                   bind (if show
                         then visualize_trajectory lib false t (Some path)
                                (max_locs r) (Some all_paths) (Some all_values)
                         else ret tt)
                     (fun _ =>
                      bind (modify_self (fun r => set_loc (last path (loc r)) r))
                        (fun _ => ret false))))))) s = (res, s') /\
    env_calls s' = env_calls s ++ [(removelast xlocs, time (self s))] /\
    match res with
    | Ok stop => stop = false /\ advances lib (self s) (self s') path
    | Raise _ => show = true /\ interrupted lib (self s) (self s') path
    end.
Proof.
  intros lib t path xlocs all_paths all_values s show Hdim Hpath.
  assert (Hstep : exists s1, (if show then visualize_reward t else ret tt) s
                             = (Ok tt, s1) /\
                             self s1 = self s /\ env_calls s1 = env_calls s).
  { destruct show.
    - destruct (visualize_reward_run t s Hdim) as (s1 & E & H1 & H2 & _).
      exists s1; repeat split; assumption.
    - eexists; split; [reflexivity |]; split; reflexivity. }
  destruct Hstep as (s1 & E1 & Hself1 & Henv1).
  erewrite bind_ok by exact E1.
  erewrite bind_ok by (rewrite collect_observations_run; reflexivity).
  erewrite bind_ok by reflexivity.
  erewrite bind_ok by reflexivity.
  erewrite bind_ok by reflexivity.
  cbv beta.
  match goal with
  | |- exists res s', bind _ _ ?st = _ /\ _ => remember st as s4 eqn:Es4
  end.
  assert (Hkeep : forall (B : Type) (proj : Robot -> B),
             (forall v r, proj (set_current_max v r) = proj r) ->
             (forall v r, proj (set_current_max_loc v r) = proj r) ->
             (forall v r, proj (set_GP v r) = proj r) ->
             proj (fold_left track_max
                     (combine
                        (map (fun x => measure_environment (self s1) x
                                                           (time (self s1)))
                             (removelast xlocs))
                        (tl xlocs))
                     (set_GP
                        (add_data (removelast xlocs)
                           (map (fun x => measure_environment (self s1) x
                                                              (time (self s1)))
                                (removelast xlocs))
                           (GP (self s1)))
                        (self s1)))
             = proj (self s)).
  { intros B proj H1 H2 H3.
    rewrite (track_max_keeps proj H1 H2), H3, Hself1; reflexivity. }
  assert (Hloc4 : loc (self s4) = loc (self s))
    by (subst s4; simpl; rewrite (Hkeep _ loc) by reflexivity; reflexivity).
  assert (Htraj4 : trajectory (self s4) = trajectory (self s) ++ [path])
    by (subst s4; simpl; rewrite (Hkeep _ trajectory) by reflexivity;
        reflexivity).
  assert (Hdist4 : dist (self s4)
                   = travelled lib (loc (self s)) path (dist (self s)))
    by (subst s4; simpl;
        rewrite (Hkeep _ loc), (Hkeep _ dist) by reflexivity; reflexivity).
  assert (Henv4 : env_calls s4
                  = env_calls s ++ [(removelast xlocs, time (self s))])
    by (subst s4; simpl; rewrite Henv1, Hself1; reflexivity).
  assert (Hlast : exists res5 s5,
             (if show
              then visualize_trajectory lib false t (Some path)
                     (max_locs (self s4)) (Some all_paths) (Some all_values)
              else ret tt) s4 = (res5, s5) /\
             frame s4 s5 /\ (show = false -> res5 = Ok tt)).
  { destruct show.
    - pose proof (visualize_trajectory_frame lib false t (Some path)
                    (max_locs (self s4)) (Some all_paths) (Some all_values) s4)
        as F.
      destruct (visualize_trajectory lib false t (Some path)
                  (max_locs (self s4)) (Some all_paths) (Some all_values) s4)
        as [res5 s5].
      exists res5, s5; split; [reflexivity |]; split; [exact F | discriminate].
    - exists (Ok tt), s4; split; [reflexivity |].
      split; [apply frame_refl | reflexivity]. }
  destruct Hlast as (res5 & s5 & E5 & [Hpose5 Henv5] & Hshow).
  unfold pose_of in Hpose5; injection Hpose5 as Hloc5 Htraj5 Hdist5.
  destruct res5 as [[] | e].
  - erewrite bind_ok by exact E5.
    erewrite bind_ok by reflexivity.
    eexists; eexists; split; [reflexivity |].
    split; [simpl env_calls; rewrite Henv5; exact Henv4 |].
    split; [reflexivity |].
    unfold advances; simpl self; simpl loc; simpl trajectory; simpl dist.
    rewrite Hloc5, Htraj5, Hdist5, Hloc4.
    repeat split; assumption.
  - erewrite bind_raise by exact E5.
    eexists; eexists; split; [reflexivity |].
    split; [rewrite Henv5; exact Henv4 |].
    split; [destruct show; [reflexivity | discriminate (Hshow eq_refl)] |].
    unfold interrupted; rewrite Hloc5, Htraj5, Hdist5.
    repeat split; assumption.
Qed.

Lemma planner_iteration_cases :
  forall (lib : Collaborators) (t : Z) (s : Runtime),
    let out := planner_iteration lib t s in
    let sampled := fun path : trajectory_t =>
      env_calls (snd out) =
      env_calls s ++ [(removelast (observation_rows (dim (self s)) t path), t)] in
    match fst out with
    | Ok false =>
        exists path, advances lib (self s) (self (snd out)) path /\ sampled path
    | Ok true => frame s (snd out)
    | Raise _ =>
        frame s (snd out) \/
        exists path,
          (t mod 10 = 0)%Z /\
          interrupted lib (self s) (self (snd out)) path /\ sampled path
    end.
Proof.
  intros lib t s; cbv zeta; unfold planner_iteration.
  erewrite bind_ok by reflexivity.
  erewrite bind_ok by reflexivity.
  erewrite bind_ok by reflexivity.
  match goal with
  | |- context [bind (predict_max lib) _ ?st] => set (s1 := st)
  end.
  assert (F1 : frame s s1) by (split; reflexivity).
  pose proof (predict_max_frame lib s1) as F2.
  pose proof (predict_max_time_dim lib s1) as [T2 D2].
  destruct (predict_max lib s1) as [[[pred_loc pred_val] | e] s2] eqn:E2;
    [erewrite bind_ok by exact E2
    | erewrite bind_raise by exact E2; simpl in *;
      left; exact (frame_trans F1 F2)].
  simpl snd in F2, T2, D2; cbv beta iota.
  erewrite bind_ok by reflexivity.
  match goal with
  | |- context [bind (select_action lib t) _ ?st] => set (s3 := st)
  end.
  assert (F3 : frame s s3)
    by (apply frame_trans with s2;
        [exact (frame_trans F1 F2) | split; reflexivity]).
  pose proof (select_action_frame lib t s3) as F4.
  pose proof (select_action_time_dim lib t s3) as [T4 D4].
  destruct (select_action lib t s3)
    as [[[[[sampling_path best_val] all_paths] all_values] | e] s4] eqn:E4;
    [erewrite bind_ok by exact E4
    | erewrite bind_raise by exact E4; simpl in *;
      left; exact (frame_trans F3 F4)].
  simpl snd in F4, T4, D4; cbv beta iota.
  assert (F5 : frame s s4) by exact (frame_trans F3 F4).
  erewrite bind_ok by reflexivity.
  erewrite bind_ok by reflexivity.
  match goal with
  | |- context [match sampling_path with _ => _ end ?st] => set (s5 := st)
  end.
  assert (F6 : frame s s5)
    by (apply frame_trans with s4; [exact F5 | split; reflexivity]).
  assert (Htime : time (self s5) = t)
    by (subst s5; simpl; rewrite T4; subst s3; simpl; rewrite T2; reflexivity).
  assert (Hsame : dim (self s4) = dim (self s))
    by (rewrite D4; subst s3; simpl; rewrite D2; reflexivity).
  destruct sampling_path as [path |]; [| exact F6].
  destruct (observation_locations_cases (self s4) t path s5)
    as [(e & E) | (E & Hpath & Hdim)].
  - erewrite bind_raise by exact E; left; exact F6.
  - erewrite bind_ok by exact E.
    destruct (@execution_run lib t path (observation_rows (dim (self s4)) t path)
                all_paths all_values s5 (Z.eqb (t mod 10) 0) Hdim Hpath)
      as (res & s' & Erun & Henv & Hres).
    cbv beta.
    match goal with
    | |- match fst ?X with _ => _ end =>
        assert (EX : X = (res, s')) by exact Erun; rewrite EX
    end.
    simpl fst; simpl snd.
    destruct F6 as [Hpose Hcalls].
    unfold pose_of in Hpose; injection Hpose as Hloc Htraj Hdist.
    rewrite Hcalls, Htime, Hsame in Henv.
    destruct res as [stop | e].
    + destruct Hres as [-> (H1 & H2 & H3 & H4)].
      exists path; split; [| exact Henv].
      unfold advances; rewrite <- Hloc, <- Htraj, <- Hdist; tauto.
    + destruct Hres as [Hshow (H1 & H2 & H3 & H4)].
      right; exists path.
      split; [apply Z.eqb_eq; exact Hshow |]; split; [| exact Henv].
      unfold interrupted; rewrite <- Hloc, <- Htraj, <- Hdist; tauto.
Qed.

(** X6. One iteration of the planner ends in one of three ways.  It returns
    to continue the loop, and then it has executed a non-empty trajectory:
    the pose is its last waypoint, the history has it appended, the distance
    has grown by its segments (the one from the previous pose included), and
    the sampler was called once, at iteration time, on the observation
    locations of the trajectory (its waypoints, with the iteration as third
    coordinate in 3 dimensions) but the last.  Or it breaks out of the loop,
    and then pose, history, distance and the record of sampler calls are as
    before.  Or it raises, and then these are either as before, or the plot
    of the trajectories has failed in an iteration that is a multiple of 10:
    the trajectory was sampled, recorded in the history and counted in the
    distance, but the pose was not moved. *)
Theorem planner_iteration_outcome :
  forall (lib : Collaborators) (t : Z) (s : Runtime),
    let out := planner_iteration lib t s in
    let sampled := fun path : trajectory_t =>
      env_calls (snd out) =
      env_calls s ++ [(removelast (observation_rows (dim (self s)) t path), t)] in
    match fst out with
    | Ok false =>
        exists path, advances lib (self s) (self (snd out)) path /\ sampled path
    | Ok true => frame s (snd out)
    | Raise _ =>
        frame s (snd out) \/
        exists path,
          (t mod 10 = 0)%Z /\
          interrupted lib (self s) (self (snd out)) path /\ sampled path
    end.
Proof. exact planner_iteration_cases. Qed.

(** * A whole run of the planner *)

Lemma last_app_default : forall (A : Type) (a b : list A) (d : A),
  last (a ++ b) d = last b (last a d).
Proof.
  induction a as [| x a IH]; intros b d; [reflexivity |].
  change ((x :: a) ++ b) with (x :: (a ++ b)).
  rewrite !last_cons_default; apply IH.
Qed.

(** The loop of [planner] adds up the lengths of the consecutive segments. *)
Lemma travelled_is_path_length : forall lib path start d,
  travelled lib start path d =
  fold_left Qplus
            (map (fun ab => segment_length lib (fst ab) (snd ab))
                 (combine (start :: path) path))
            d.
Proof.
  intros lib; induction path as [| m path IH]; intros start d; [reflexivity |].
  simpl travelled; rewrite IH; reflexivity.
Qed.

Lemma recorded_path_grows : forall lib start r r' path,
  path <> [] ->
  loc r = last (List.concat (trajectory r)) start ->
  trajectory r' = trajectory r ++ [path] ->
  dist r' = travelled lib (loc r) path (dist r) ->
  recorded_path lib start r ->
  recorded_path lib start r'.
Proof.
  intros lib start r r' path Hne Hloc Htraj Hdist [Hd Hf].
  unfold recorded_path; rewrite Htraj, Hdist.
  rewrite concat_app; simpl List.concat; rewrite app_nil_r.
  split; [rewrite travelled_over_app, Hloc, Hd; reflexivity |].
  apply Forall_app; split; [exact Hf | repeat constructor; exact Hne].
Qed.

Lemma on_realized_path_frame : forall lib start s s',
  frame s s' -> on_realized_path lib start (self s) ->
  on_realized_path lib start (self s').
Proof.
  intros lib start s s' [Hpose _] H.
  unfold pose_of in Hpose; injection Hpose as Hloc Htraj Hdist.
  unfold on_realized_path, recorded_path in *.
  rewrite Hloc, Htraj, Hdist; exact H.
Qed.

Lemma stalled_frame : forall lib start s s',
  frame s s' -> stalled lib start (self s) -> stalled lib start (self s').
Proof.
  intros lib start s s' [Hpose _] H.
  unfold pose_of in Hpose; injection Hpose as Hloc Htraj Hdist.
  unfold stalled, recorded_path in *.
  rewrite Hloc, Htraj, Hdist; exact H.
Qed.

Lemma on_realized_path_advances : forall lib start r r' path,
  advances lib r r' path ->
  on_realized_path lib start r -> on_realized_path lib start r'.
Proof.
  intros lib start r r' path (Hne & Hloc & Htraj & Hdist) [Hrec Hl].
  split; [exact (@recorded_path_grows lib start r r' path Hne Hl Htraj Hdist Hrec) |].
  rewrite Hloc, Htraj, concat_app; simpl List.concat; rewrite app_nil_r.
  rewrite last_app_default, Hl; reflexivity.
Qed.

Lemma stalled_interrupted : forall lib start r r' path,
  interrupted lib r r' path ->
  on_realized_path lib start r -> stalled lib start r'.
Proof.
  intros lib start r r' path (Hne & Hloc & Htraj & Hdist) [Hrec Hl].
  split; [exact (@recorded_path_grows lib start r r' path Hne Hl Htraj Hdist Hrec) |].
  rewrite Hloc, Htraj, removelast_last.
  split; [destruct (trajectory r); discriminate | exact Hl].
Qed.

(** Along the loop the robot stays on the path of its history; a loop that
    raises may leave it where the last trajectory of the history begins. *)
Lemma planner_loop_realized_path : forall lib ts start s,
  on_realized_path lib start (self s) ->
  match fst (planner_loop lib ts s) with
  | Ok _ => on_realized_path lib start (self (snd (planner_loop lib ts s)))
  | Raise _ =>
      on_realized_path lib start (self (snd (planner_loop lib ts s))) \/
      stalled lib start (self (snd (planner_loop lib ts s)))
  end /\
  (List.length (trajectory (self (snd (planner_loop lib ts s))))
   <= List.length (trajectory (self s)) + List.length ts)%nat.
Proof.
  intros lib ts start; induction ts as [| t ts IH]; intros s H;
    [split; [exact H | simpl; lia] |].
  simpl planner_loop; unfold bind.
  pose proof (planner_iteration_cases lib t s) as Hcase; cbv zeta in Hcase.
  destruct (planner_iteration lib t s) as [[stop | e] s1]; simpl in Hcase.
  - destruct stop.
    + simpl; split; [exact (@on_realized_path_frame lib _ _ _ Hcase H) |].
      destruct Hcase as [Hpose _]; unfold pose_of in Hpose.
      injection Hpose as _ Htraj _; rewrite Htraj; lia.
    + destruct Hcase as (path & Hadv & _).
      destruct (IH s1 (@on_realized_path_advances lib start _ _ path Hadv H))
        as [H1 H2].
      split; [exact H1 |].
      destruct Hadv as (_ & _ & Htraj & _); rewrite Htraj, length_app in H2.
      simpl in *; lia.
  - simpl; destruct Hcase as [Hframe | (path & _ & Hint & _)].
    + split; [left; exact (@on_realized_path_frame lib _ _ _ Hframe H) |].
      destruct Hframe as [Hpose _]; unfold pose_of in Hpose.
      injection Hpose as _ Htraj _; rewrite Htraj; lia.
    + split; [right; exact (@stalled_interrupted lib start _ _ path Hint H) |].
      destruct Hint as (_ & _ & Htraj & _); rewrite Htraj, length_app.
      simpl; lia.
Qed.

Lemma export_model_frame : forall s, frame s (snd (export_model s)).
Proof.
  intros s; apply evolves_export_model;
    first [apply frame_refl | apply frame_trans | intros; split; reflexivity].
Qed.

(** The path of a whole run, from the pose at which it started. *)
Lemma planner_run_path : forall (lib : Collaborators) (T : nat) (s : Runtime),
  let out := planner lib T s in
  match fst out with
  | Ok _ => on_realized_path lib (loc (self s)) (self (snd out))
  | Raise _ =>
      on_realized_path lib (loc (self s)) (self (snd out)) \/
      stalled lib (loc (self s)) (self (snd out))
  end /\
  (List.length (trajectory (self (snd out))) <= T)%nat.
Proof.
  intros lib T s; cbv zeta; unfold planner.
  erewrite bind_ok by reflexivity.
  erewrite bind_ok by reflexivity.
  match goal with
  | |- context [bind (planner_loop lib ?ts) _ ?st] =>
      remember st as s0 eqn:Es0; remember ts as l eqn:El
  end.
  assert (H0 : on_realized_path lib (loc (self s)) (self s0)).
  { subst s0; unfold on_realized_path, recorded_path; simpl.
    repeat split; constructor. }
  assert (Hlen : (List.length (trajectory (self s0)) + List.length l = T)%nat).
  { subst s0 l; simpl; rewrite length_map, length_seq; reflexivity. }
  destruct (@planner_loop_realized_path lib l _ s0 H0) as [H1 H2].
  rewrite Hlen in H2.
  unfold bind; destruct (planner_loop lib l s0) as [[[] | e] s1]; simpl in *.
  - pose proof (export_model_frame s1) as F.
    assert (Htraj : trajectory (self (snd (export_model s1)))
                    = trajectory (self s1)).
    { destruct F as [Hpose _]; unfold pose_of in Hpose.
      injection Hpose as _ Htraj _; exact Htraj. }
    split; [| rewrite Htraj; exact H2].
    pose proof (@on_realized_path_frame lib _ _ _ F H1) as H3.
    destruct (fst (export_model s1)); [exact H3 | left; exact H3].
  - split; [exact H1 | exact H2].
Qed.

(** X7. After a run of [planner] over [T] iterations, however it ended
    (horizon exhausted, break, or an exception), the history holds at most
    [T] trajectories, all of this run and none empty.  When the run returns,
    the robot stands at the last waypoint of the last one (where it started,
    if there is none).  When the run raises, the robot stands either there,
    or where the last trajectory of the history begins: that trajectory was
    recorded and the pose was not moved. *)
Theorem planner_realized_path :
  forall (lib : Collaborators) (T : nat) (s : Runtime),
    let out := planner lib T s in
    let history := trajectory (self (snd out)) in
    let reached := loc (self (snd out)) in
    (List.length history <= T)%nat /\
    Forall (fun path : trajectory_t => path <> []) history /\
    match fst out with
    | Ok _ => reached = last (List.concat history) (loc (self s))
    | Raise _ =>
        reached = last (List.concat history) (loc (self s)) \/
        (history <> [] /\
         reached = last (List.concat (removelast history)) (loc (self s)))
    end.
Proof.
  intros lib T s; cbv zeta.
  destruct (planner_run_path lib T s) as [H Hlen]; cbv zeta in H.
  split; [exact Hlen |].
  destruct (fst (planner lib T s)).
  - destruct H as [[_ Hf] Hl]; split; [exact Hf | exact Hl].
  - destruct H as [[[_ Hf] Hl] | ([_ Hf] & Hne & Hl)];
      (split; [exact Hf |]); [left; exact Hl | right; split; assumption].
Qed.

(** X15. After a run of [planner], however it ended, the accumulated
    distance is the length of the path that the trajectories of the history
    make up from the pose at which the run started: the Euclidean lengths of
    its consecutive segments, the segments that join one trajectory to the
    next included, added up in the order of the path. *)
Theorem planner_distance_is_path_length :
  forall (lib : Collaborators) (T : nat) (s : Runtime),
    let r' := self (snd (planner lib T s)) in
    dist r' = path_length lib (loc (self s)) (List.concat (trajectory r')).
Proof.
  intros lib T s; cbv zeta.
  destruct (planner_run_path lib T s) as [H _]; cbv zeta in H.
  unfold path_length; rewrite <- travelled_is_path_length.
  destruct (fst (planner lib T s)).
  - destruct H as [[Hd _] _]; exact Hd.
  - destruct H as [[[Hd _] _] | [[Hd _] _]]; exact Hd.
Qed.

(** A plot that fails leaves the pose behind: with a candidate that has no
    waypoint, the first iteration selects the other candidate, samples along
    it, records it in the history and in the distance, and then raises in
    [visualize_trajectory], before the pose is moved; nothing is exported. *)
Example plot_failure_leaves_the_pose_behind :
  let out := planner (collaborators_with displacement) 3 ragged_start in
  fst out = Raise IndexError /\
  trajectory (self (snd out)) = [[mk_row 5 5 [0]; mk_row 6 5 [0]]] /\
  loc (self (snd out)) = mk_row 5 5 [0] /\
  List.length (env_calls (snd out)) = 1%nat /\
  belief_size (GP (self (snd out))) = 1%nat /\
  saved (snd out) = [].
Proof. cbv zeta; vm_compute; repeat split. Qed.

(** * Further properties of the methods *)

(** X1. The value of the tracker after [collect_observations] is the running
    maximum of the samples taken, in sample order, with strict improvement;
    it is not below the value tracked before, and no sample exceeds it. *)
Theorem tracked_value_is_running_maximum :
  forall (xobs : list row) (s : Runtime),
    let r := self s in
    let zobs := map (fun x => measure_environment r x (time r)) (removelast xobs) in
    let m' := current_max (self (snd (collect_observations xobs s))) in
    m' = running_max (current_max r) zobs /\
    float_gtb (current_max r) m' = false /\
    (forall z, In z zobs -> float_gtb z m' = false).
Proof. exact collect_observations_current_max. Qed.

Lemma pick_best_self : forall actions value s,
  self (snd (pick_best actions value s)) = self s.
Proof.
  intros actions value s.
  apply (@evolves_pick_best (fun a b => self b = self a));
    try (intros; reflexivity).
  intros s1 s2 s3 H1 H2; congruence.
Qed.

(** X8. [choose_trajectory] reads the robot and changes nothing of it, with
    one exception: for the 'mes' reward it stores the sample of maxima drawn
    for this choice.  This holds whether the choice returns or raises; the
    belief, the pose with history and distance, and the tracker are never
    touched. *)
Theorem choose_trajectory_only_stores_the_maxima :
  forall (lib : Collaborators) (t : Z) (s : Runtime),
    let r := self s in
    let r' := self (snd (choose_trajectory lib t s)) in
    r' = remember_maxima lib r t /\
    (if String.eqb (f_rew r) "mes"
     then let '(mv, ml, tg) :=
            aqlib_sample_max_vals lib (GP r) t (obstacle_world r) in
          max_val r' = Some mv /\ max_locs r' = Some ml /\ target r' = Some tg
     else r' = r) /\
    GP r' = GP r /\ pose_of r' = pose_of r /\
    current_max r' = current_max r /\ current_max_loc r' = current_max_loc r /\
    config_of r' = config_of r.
Proof.
  intros lib t s r r'.
  assert (E : r' = remember_maxima lib r t).
  { subst r'; rewrite choose_trajectory_run, pick_best_self; reflexivity. }
  split; [exact E |]; rewrite E; unfold remember_maxima.
  destruct (String.eqb (f_rew r) "mes"); [| repeat split].
  destruct (aqlib_sample_max_vals lib (GP r) t (obstacle_world r)) as [[mv ml] tg].
  repeat split.
Qed.

(** X9. No operation of the agent changes what the constructor configured:
    extent, dimension, sampler, noise, obstacle world, kernel, reward tag and
    function, path generator, planning mode and budgets, colours and flags
    are, after any sequence of operations, what they were. *)
Theorem configuration_is_never_mutated :
  forall (lib : Collaborators) (ops : list operation) (s : Runtime),
    config_of (self (after lib ops s)) = config_of (self s).
Proof.
  intros lib ops s.
  apply (@evolves_after lib (fun a b => config_of (self b) = config_of (self a)));
    try (intros; reflexivity).
  - intros s1 s2 s3 H1 H2; congruence.
  - intros xobs s0; rewrite collect_observations_run; simpl self.
    rewrite (@track_max_keeps _ config_of) by reflexivity; reflexivity.
Qed.

(** A robot that the constructor returned has 2 or 3 dimensions and keeps
    them through every operation: for it the test of the dimension in the
    loop of the planner never fails. *)
Lemma constructed_robot_keeps_its_dimension :
  forall (lib : Collaborators) (kw : kwargs) (r : Robot) (g : RandomState)
         (ops : list operation) (t : Z) (path : trajectory_t),
    Robot_init kw = Ok r ->
    let s := after lib ops (start_runtime r g) in
    (dim (self s) = 2%Z \/ dim (self s) = 3%Z) /\
    fst (observation_locations (self s) t path s) <> Raise unsupported_dimension.
Proof.
  intros lib kw r g ops t path Hinit; cbv zeta.
  destruct (Robot_init_ok kw Hinit) as (Hdim & aq & _ & ->).
  assert (Hkeep : dim (self (after lib ops
                    (start_runtime (fresh_robot kw (init_GP kw) aq) g)))
                  = kw_dimension kw).
  { apply (@evolves_after lib
             (fun a b : Runtime => dim (self a) = kw_dimension kw ->
                                   dim (self b) = kw_dimension kw));
      try (intros; assumption); try reflexivity.
    - intros s1 s2 s3 H1 H2 H; auto.
    - intros xobs s0 H; rewrite collect_observations_run; simpl self.
      rewrite (@track_max_keeps _ dim) by reflexivity; exact H. }
  rewrite Hkeep; split; [exact Hdim |].
  destruct (observation_locations_cases
              (self (after lib ops
                 (start_runtime (fresh_robot kw (init_GP kw) aq) g))) t path
              (after lib ops (start_runtime (fresh_robot kw (init_GP kw) aq) g)))
    as [(e & E) | (E & _)]; rewrite E; simpl; [| discriminate].
  revert E; destruct path as [| p path];
    [simpl; intros E; injection E as <-; discriminate |].
  unfold observation_locations; rewrite Hkeep.
  destruct Hdim as [-> | ->]; discriminate.
Qed.

(** X10. Without candidates [choose_trajectory] does not return: the
    IndexError of [random.choice] on an empty list, raised a second time in
    the handler, leaves the method after two draws of the random generator;
    nothing is logged. *)
Theorem choose_trajectory_raises_without_candidates :
  forall (lib : Collaborators) (t : Z) (s : Runtime),
    generate_trajectories (self s) t = [] ->
    let out := choose_trajectory lib t s in
    fst out = Raise IndexError /\
    cursor (random (snd out)) = S (S (cursor (random s))) /\
    robot_log (snd out) = robot_log s /\
    py_warnings (snd out) = py_warnings s /\
    self (snd out) = remember_maxima lib (self s) t.
Proof.
  intros lib t s H; cbv zeta.
  rewrite (choose_trajectory_no_candidates lib t s H); repeat split.
Qed.

(** X10, witness: a generator that returns no trajectory at all. *)
Lemma choose_trajectory_raises_without_candidates_witness :
  generate_trajectories (self stuck_start) 0 = [] /\
  fst (choose_trajectory (collaborators_with displacement) 0 stuck_start)
  = Raise IndexError.
Proof.
  assert (H : generate_trajectories (self stuck_start) 0 = []) by reflexivity.
  split; [exact H |].
  exact (proj1 (@choose_trajectory_raises_without_candidates
                  (collaborators_with displacement) 0%Z stuck_start H)).
Defined.

Lemma predict_max_unbound : forall lib s,
  xvals (GP (self s)) <> None ->
  dim (self s) <> 2%Z -> dim (self s) <> 3%Z ->
  predict_max lib s = (Raise UnboundLocalError, s).
Proof.
  intros lib s Hobs H2 H3; unfold predict_max, bind at 1, get_self.
  destruct (xvals (GP (self s))); [| contradiction].
  unfold bind, prediction_grid, mesh_data.
  destruct (ranges (self s)) as [[[lo1 hi1] lo2] hi2].
  destruct (Z.eqb_spec (dim (self s)) 2); [contradiction |].
  destruct (Z.eqb_spec (dim (self s)) 3); [contradiction |].
  reflexivity.
Qed.

(** X11. When the belief already holds data (a prior dataset, earlier
    observations) and the world has neither 2 nor 3 dimensions, a run of at
    least one iteration fails in [predict_max], where [data] is used without
    having been assigned: it raises UnboundLocalError right after the first
    log line of iteration 0, before the predictor is called, any action is
    selected or metrics are logged; nothing is exported. *)
Theorem planner_fails_in_predict_max_on_bad_dimension :
  forall (lib : Collaborators) (T : nat) (s : Runtime),
    xvals (GP (self s)) <> None ->
    dim (self s) <> 2%Z -> dim (self s) <> 3%Z ->
    let out := planner lib (S T) s in
    fst out = Raise UnboundLocalError /\
    robot_log (snd out) =
      robot_log s ++ [mk_log INFO (CurrentLocation 0 (loc (self s)))] /\
    eval_log (snd out) = eval_log s /\
    gp_calls (GP (self (snd out))) = gp_calls (GP (self s)) /\
    cursor (random (snd out)) = cursor (random s) /\
    env_calls (snd out) = env_calls s /\
    saved (snd out) = saved s.
Proof.
  intros lib T s Hobs H2 H3; cbv zeta; unfold planner.
  erewrite bind_ok by reflexivity.
  erewrite bind_ok by reflexivity.
  change (map Z.of_nat (seq 0 (S T))) with (0%Z :: map Z.of_nat (seq 1 T)).
  erewrite bind_raise.
  2:{ simpl planner_loop; erewrite bind_raise; [reflexivity |].
      unfold planner_iteration.
      erewrite bind_ok by reflexivity.
      erewrite bind_ok by reflexivity.
      erewrite bind_ok by reflexivity.
      erewrite bind_raise; [reflexivity |].
      apply predict_max_unbound; assumption. }
  repeat split.
Qed.

(** X11, witness: a robot whose dimension attribute is 4 and whose belief
    holds two observations. *)
Lemma planner_fails_in_predict_max_on_bad_dimension_witness :
  xvals (GP (self four_dim_prior_start)) <> None /\
  dim (self four_dim_prior_start) <> 2%Z /\
  dim (self four_dim_prior_start) <> 3%Z /\
  fst (planner (collaborators_with displacement) 3 four_dim_prior_start)
  = Raise UnboundLocalError.
Proof.
  assert (H1 : xvals (GP (self four_dim_prior_start)) <> None) by discriminate.
  assert (H2 : dim (self four_dim_prior_start) <> 2%Z) by discriminate.
  assert (H3 : dim (self four_dim_prior_start) <> 3%Z) by discriminate.
  split; [exact H1 |]; split; [exact H2 |]; split; [exact H3 |].
  exact (proj1 (@planner_fails_in_predict_max_on_bad_dimension
                  (collaborators_with displacement) 2%nat four_dim_prior_start
                  H1 H2 H3)).
Defined.




(** A belief that received an empty prior dataset holds no observation and
    is exported, once the directory exists, as empty columns. *)
Example planner_exports_an_empty_belief :
  let kw := scenario_kwargs 2 "rbf" "mean" None (Some ([], [])) fan in
  let r := fresh_robot kw (init_GP kw) mean_UCB in
  let s := snd (os_makedirs (figures_dir r) (start_runtime r (random_of []))) in
  let out := planner (collaborators_with displacement) 0 s in
  Robot_init kw = Ok r /\
  belief_size (GP r) = 0%nat /\
  fst out = Ok tt /\
  saved (snd out) = [("./figures/mean/robot_model.csv"%string, ([], [], []))].
Proof. cbv zeta; vm_compute; repeat split. Qed.

(** Without the directory the same run fails in the export. *)
Example planner_cannot_export_without_directory :
  let kw := scenario_kwargs 2 "rbf" "mean" None (Some ([], [])) fan in
  let r := fresh_robot kw (init_GP kw) mean_UCB in
  let out := planner (collaborators_with displacement) 0
                     (start_runtime r (random_of [])) in
  fst out = Raise IOError /\ saved (snd out) = [].
Proof. cbv zeta; vm_compute; split; reflexivity. Qed.






